(** * GO-Chi-Project: the error-returning handler adapter and the static file mount

    A shallow embedding of [main.go]: the [Handler] adapter with its
    [ServeHTTP] method, [customHandler], [FileServer] and the router that
    [main] builds.  The Go packages the program calls ([strings], [errors],
    [net/url], [net/textproto], [net/http], [path], [chi], [chi/middleware])
    are modelled in modules of the same names, each definition stating which library
    behaviour it stands for. *)

From Stdlib Require Import ZArith Ascii.
From stdpp Require Import base option list strings gmap.

Local Open Scope Z_scope.

(** ** Go runtime: panics *)

(** A goroutine that panics carries either the value handed to [panic] or a
    runtime error; the only runtime error this program can raise is an index
    out of range. *)
Inductive Panic : Type :=
  | PanicValue (v : string)
  | IndexOutOfRange (index length : Z).

Inductive Result (A : Type) : Type :=
  | Ok (a : A)
  | Panicked (p : Panic).
Arguments Ok {A} a.
Arguments Panicked {A} p.

(** [len(s)] of a Go string, as an [int]. *)
Definition len (s : string) : Z := Z.of_nat (String.length s).

(** [s[i]]: the byte at index [i]; out of range is a runtime panic. *)
Definition index (s : string) (i : Z) : Result ascii :=
  if (i <? 0) || (len s <=? i) then Panicked (IndexOutOfRange i (len s))
  else match String.get (Z.to_nat i) s with
       | Some c => Ok c
       | None => Panicked (IndexOutOfRange i (len s))
       end.

(** ** Package strings *)
Module strings.

(** [strings.HasPrefix(s, prefix)]; [dropPrefix] also returns the rest. *)
Fixpoint dropPrefix (prefix s : string) : option string :=
  match prefix, s with
  | EmptyString, _ => Some s
  | String a prefix', String b s' =>
      if Ascii.eqb a b then dropPrefix prefix' s' else None
  | String _ _, EmptyString => None
  end.

Definition HasPrefix (s prefix : string) : bool :=
  bool_decide (is_Some (dropPrefix prefix s)).

(** [strings.TrimPrefix(s, prefix)]: [s] without the leading [prefix], or
    [s] itself when it does not start with [prefix]. *)
Definition TrimPrefix (s prefix : string) : string :=
  default s (dropPrefix prefix s).

(** [dropSuffix suffix s] is [Some p] exactly when [s = p ++ suffix]. *)
Fixpoint dropSuffix (suffix s : string) : option string :=
  if String.eqb s suffix then Some EmptyString
  else match s with
       | EmptyString => None
       | String a s' => String a <$> dropSuffix suffix s'
       end.

Definition HasSuffix (s suffix : string) : bool :=
  bool_decide (is_Some (dropSuffix suffix s)).

(** [strings.TrimSuffix(s, suffix)]. *)
Definition TrimSuffix (s suffix : string) : string :=
  default s (dropSuffix suffix s).

(** [strings.IndexByte(s, c) >= 0]. *)
Fixpoint containsByte (c : ascii) (s : string) : bool :=
  match s with
  | EmptyString => false
  | String a s' => Ascii.eqb a c || containsByte c s'
  end.

(** [strings.ContainsAny(s, chars)]: some code point of [chars] occurs in
    [s].  The program calls it with ASCII [chars] only, for which the test
    on code points is the test on bytes. *)
Fixpoint ContainsAny (s chars : string) : bool :=
  match s with
  | EmptyString => false
  | String a s' => containsByte a chars || ContainsAny s' chars
  end.

(** [strings.Contains(s, substr)]. *)
Fixpoint Contains (s substr : string) : bool :=
  HasPrefix s substr ||
  match s with
  | EmptyString => false
  | String _ s' => Contains s' substr
  end.

(** [strings.Join(elems, sep)]. *)
Fixpoint Join (elems : list string) (sep : string) : string :=
  match elems with
  | [] => EmptyString
  | [e] => e
  | e :: rest => e +:+ sep +:+ Join rest sep
  end.

(** [strings.Split(s, sep)] for a one-byte separator. *)
Fixpoint splitByte (sep : ascii) (s : string) : list string :=
  match s with
  | EmptyString => [EmptyString]
  | String a s' =>
      if Ascii.eqb a sep then EmptyString :: splitByte sep s'
      else match splitByte sep s' with
           | [] => [String a EmptyString]
           | e :: rest => String a e :: rest
           end
  end.

(** [strings.ReplaceAll(s, old, new)] for a non-empty [old]: the
    non-overlapping occurrences of [old], leftmost first.  [skip] counts the
    bytes of an occurrence still to be dropped. *)
Fixpoint replaceFrom (skip : nat) (s old new : string) : string :=
  match s with
  | EmptyString => EmptyString
  | String a s' =>
      match skip with
      | S k => replaceFrom k s' old new
      | O =>
          if HasPrefix s old
          then new +:+ replaceFrom (String.length old - 1) s' old new
          else String a (replaceFrom O s' old new)
      end
  end.

Definition ReplaceAll (s old new : string) : string := replaceFrom O s old new.

End strings.

(** ** Package errors *)
Module errors.
(** The [error] values of the program all come from [errors.New]. *)
Inductive error : Type := New (text : string).
Definition Error (e : error) : string := let 'New text := e in text.
End errors.
Abbreviation error := errors.error.

(** ** Package net/url *)
Module url.

(** [url.Values], a [map[string][]string]. *)
Abbreviation Values := (gmap string (list string)).

(** [Values.Get(key)]: the first value of [key], or the empty string when
    the key has no value. *)
Definition Get (v : Values) (key : string) : string :=
  match v !! key with
  | Some (first :: _) => first
  | Some [] | None => EmptyString
  end.

Definition isHex (c : ascii) : bool :=
  let n := N_of_ascii c in
  (((48 <=? n) && (n <=? 57)) || ((97 <=? n) && (n <=? 102))
   || ((65 <=? n) && (n <=? 70)))%N.

Definition unhex (c : ascii) : N :=
  let n := N_of_ascii c in
  (if (48 <=? n) && (n <=? 57) then n - 48
   else if (97 <=? n) && (n <=? 102) then n - 97 + 10
   else if (65 <=? n) && (n <=? 70) then n - 65 + 10
   else 0)%N.

(** [url.QueryUnescape(s)]: [%XX] becomes the byte with that hex code and
    [+] a space; a [%] that is not followed by two hex digits is an
    error. *)
Fixpoint QueryUnescape (s : string) : option string :=
  match s with
  | EmptyString => Some EmptyString
  | String "%" (String h1 (String h2 rest)) =>
      if isHex h1 && isHex h2
      then String (ascii_of_N (16 * unhex h1 + unhex h2)) <$> QueryUnescape rest
      else None
  | String "%" _ => None
  | String "+" rest => String " " <$> QueryUnescape rest
  | String c rest => String c <$> QueryUnescape rest
  end.

(** [strings.Cut(s, "=")]: the parts before and after the first [=]; all
    of [s] and the empty string when there is none. *)
Fixpoint cutEquals (s : string) : string * string :=
  match s with
  | EmptyString => (EmptyString, EmptyString)
  | String a s' =>
      if Ascii.eqb a "=" then (EmptyString, s')
      else let '(k, v) := cutEquals s' in (String a k, v)
  end.

(** One [key=value] pair of a query, added to the values; a pair that is
    empty, holds a semicolon or does not unescape is dropped. *)
Definition addPair (m : Values) (pair : string) : Values :=
  if strings.containsByte ";" pair then m
  else if String.eqb pair "" then m
  else
    let '(key, value) := cutEquals pair in
    match QueryUnescape key, QueryUnescape value with
    | Some key, Some value => <[key := default [] (m !! key) ++ [value]]> m
    | _, _ => m
    end.

(** [url.ParseQuery(query)], without its error: the pairs between the
    ampersands, in order. *)
Definition ParseQuery (query : string) : Values :=
  fold_left addPair (strings.splitByte "&" query) ∅.

(** [url.URL], with the fields the program and its libraries read. *)
Record URL : Type := {
  Scheme : string;
  Host : string;
  Path : string;
  RawPath : string;
  RawQuery : string;
}.

(** [u.Query()]: [RawQuery] parsed, the pairs in error left out. *)
Definition Query (u : URL) : Values := ParseQuery (RawQuery u).

Definition withPath (u : URL) (p rp : string) : URL :=
  {| Scheme := Scheme u; Host := Host u; Path := p; RawPath := rp;
     RawQuery := RawQuery u |}.

(** [url.Parse] and [u.EscapedPath()] are left open: of the first the model
    needs whether a string parses and, when it does, the scheme and host of
    the result; the second is read when a redirect target is relative. *)
Class Parser : Type := {
  Parse : string -> option URL;
  EscapedPath : URL -> string;
}.

End url.

(** ** Package path *)
Module path.

(** One step of [path.Clean] over the elements of a path: empty elements
    and [.] are dropped, [..] removes the element before it; at the start of
    a rooted path [..] is dropped, at the start of a relative one it is
    kept.  [out] holds the elements kept so far, last one first. *)
Definition cleanStep (rooted : bool) (out : list string) (elem : string)
  : list string :=
  if String.eqb elem "" || String.eqb elem "." then out
  else if String.eqb elem ".." then
    match out with
    | top :: below =>
        if String.eqb top ".." then elem :: out else below
    | [] => if rooted then out else [elem]
    end
  else elem :: out.

(** [path.Clean(p)]: the shortest path equivalent to [p]. *)
Definition Clean (p : string) : string :=
  match p with
  | EmptyString => "."
  | String c _ =>
      let rooted := Ascii.eqb c "/" in
      let out := rev (fold_left (cleanStep rooted) (strings.splitByte "/" p) []) in
      if rooted then "/" +:+ strings.Join out "/"
      else match out with
           | [] => "."
           | _ => strings.Join out "/"
           end
  end.

(** The directory part of [path.Split(p)]: [p] up to and including its last
    slash. *)
Fixpoint splitDir (p : string) : string :=
  match p with
  | EmptyString => EmptyString
  | String a p' =>
      if strings.containsByte "/" p then String a (splitDir p') else EmptyString
  end.

End path.

(** ** Package net/textproto *)
Module textproto.

(** [validHeaderFieldByte]: the bytes of a token. *)
Definition validHeaderFieldByte (c : ascii) : bool :=
  let n := N_of_ascii c in
  (((48 <=? n) && (n <=? 57)) || ((65 <=? n) && (n <=? 90))
   || ((97 <=? n) && (n <=? 122)))%N
  || strings.containsByte c "!#$%&'*+-.^_`|~".

Fixpoint validHeaderField (s : string) : bool :=
  match s with
  | EmptyString => true
  | String c s' => validHeaderFieldByte c && validHeaderField s'
  end.

(** The first letter and the letters after a dash in upper case, the other
    letters in lower case. *)
Fixpoint canonical (upper : bool) (s : string) : string :=
  match s with
  | EmptyString => EmptyString
  | String c s' =>
      let n := N_of_ascii c in
      let c :=
        if (upper && (97 <=? n) && (n <=? 122))%N then ascii_of_N (n - 32)
        else if (negb upper && (65 <=? n) && (n <=? 90))%N then ascii_of_N (n + 32)
        else c in
      String c (canonical (Ascii.eqb c "-") s')
  end.

(** [textproto.CanonicalMIMEHeaderKey(s)]: a key with a byte that no token
    holds is returned as it is. *)
Definition CanonicalMIMEHeaderKey (s : string) : string :=
  if validHeaderField s then canonical true s else s.

End textproto.

(** ** Package chi: the routing context of a request *)

(** [chi.Context], the part of it the program and the router read: the route
    path still to be matched, when a parent router set one, and the patterns
    matched so far, outermost first. *)
Record chiContext : Type := {
  RoutePath : string;
  RoutePatterns : list string;
}.

(** ** Package net/http *)
Module http.

(** [http.Header], a [map[string][]string]. *)
Abbreviation Header := (gmap string (list string)).

(** The values a request's [context.Context] holds in this program: chi's
    routing context (key [chi.RouteCtxKey]) and the request id of
    [middleware.RequestID]. *)
Record Context : Type := {
  RouteCtx : option chiContext;
  RequestID : option string;
}.

Record Request : Type := {
  Method : string;
  URL : url.URL;
  ctx : Context;
}.

(** [r.WithContext(c)]. *)
Definition WithContext (r : Request) (c : Context) : Request :=
  {| Method := Method r; URL := URL r; ctx := c |}.

(** *** The response writer

    [http.ResponseWriter] is an interface of three methods.  A writer is
    modelled by the calls made on it, oldest first, those on the header map
    that [Header()] hands out being [Set], [Add] and [Del]; what the client
    sees is how net/http's [response] interprets them ([run] and
    [finishRequest] below). *)
Inductive WriterCall : Type :=
  | CallHeaderSet (key value : string)
  | CallHeaderAdd (key value : string)
  | CallHeaderDel (key : string)
  | CallWriteHeader (statusCode : Z)
  | CallWrite (b : string).

#[global] Instance WriterCall_eq_dec : EqDecision WriterCall.
Proof. solve_decision. Defined.

Definition ResponseWriter : Type := list WriterCall.

(** [w.Header().Set(key, value)] *)
Definition HeaderSet (key value : string) (w : ResponseWriter) : ResponseWriter :=
  w ++ [CallHeaderSet key value].
(** [w.Header().Add(key, value)] *)
Definition HeaderAdd (key value : string) (w : ResponseWriter) : ResponseWriter :=
  w ++ [CallHeaderAdd key value].
(** [w.Header().Del(key)] *)
Definition HeaderDel (key : string) (w : ResponseWriter) : ResponseWriter :=
  w ++ [CallHeaderDel key].
(** [w.WriteHeader(statusCode)] *)
Definition WriteHeader (statusCode : Z) (w : ResponseWriter) : ResponseWriter :=
  w ++ [CallWriteHeader statusCode].
(** [w.Write(b)] *)
Definition Write (b : string) (w : ResponseWriter) : ResponseWriter :=
  w ++ [CallWrite b].

(** [fmt.Fprintln(w, s)] *)
Definition Fprintln (s : string) (w : ResponseWriter) : ResponseWriter :=
  Write (s +:+ String "010" EmptyString) w.

(** A decimal digit's value. *)
Definition digitValue (c : ascii) : option Z :=
  let n := N_of_ascii c in
  if ((48 <=? n) && (n <=? 57))%N then Some (Z.of_N n - 48) else None.

Fixpoint digitsValue (acc : Z) (s : string) : option Z :=
  match s with
  | EmptyString => Some acc
  | String c s' =>
      match digitValue c with
      | Some d => digitsValue (10 * acc + d) s'
      | None => None
      end
  end.

(** [strconv.ParseInt(s, 10, 64)], without its error: an optional sign and
    at least one digit, the value within 64 bits. *)
Definition ParseInt64 (s : string) : option Z :=
  let '(negative, digits) :=
    match s with
    | String "+" rest => (false, rest)
    | String "-" rest => (true, rest)
    | _ => (false, s)
    end in
  if String.eqb digits "" then None
  else match digitsValue 0 digits with
       | Some v =>
           let v := if negative then - v else v in
           if (- 2 ^ 63 <=? v) && (v <? 2 ^ 63) then Some v else None
       | None => None
       end.

(** A status code from 100 to 199 other than 101 announces an interim
    response. *)
Definition informational (statusCode : Z) : bool :=
  (100 <=? statusCode) && (statusCode <=? 199) && negb (statusCode =? 101).

(** [bodyAllowedForStatus] *)
Definition bodyAllowedForStatus (statusCode : Z) : bool :=
  negb (((100 <=? statusCode) && (statusCode <=? 199))
        || (statusCode =? 204) || (statusCode =? 304)).

(** net/http's [response]: the header map handed out by [Header()], and
    what has been sent.  The first [WriteHeader] with a final status fixes
    the status, snapshots the headers and reads a declared
    [Content-Length]; a later one is ignored, and an interim status fixes
    nothing.  [Write] sends the header with status 200 first when none was
    sent; its bytes are refused when the status allows no body or when they
    exceed the declared length.  [sentHeader] holds the headers the handler
    had set when the header was sent; content sniffing and the headers the
    server adds itself are not part of the model.  A [WriteHeader] with a
    code outside 100 to 999 panics in net/http; handlers in this model do
    not panic, so the calls of a handler that returns carry codes within
    that range. *)
Record response : Type := {
  handlerHeader : Header;
  wroteHeader : bool;
  status : Z;
  sentHeader : Header;
  written : string;
  contentLength : option Z;
  attempted : Z;
}.

Definition newResponse : response :=
  {| handlerHeader := ∅; wroteHeader := false; status := 0;
     sentHeader := ∅; written := EmptyString;
     contentLength := None; attempted := 0 |}.

(** [h.get(key)]: the first value of [key], or the empty string. *)
Definition headerGet (h : Header) (key : string) : string :=
  match h !! key with
  | Some (first :: _) => first
  | Some [] | None => EmptyString
  end.

Definition sendHeader (statusCode : Z) (st : response) : response :=
  if wroteHeader st then st
  else if informational statusCode then st
  else
    let cl := headerGet (handlerHeader st) "Content-Length" in
    let declared := if String.eqb cl "" then None else ParseInt64 cl in
    let valid := match declared with Some v => 0 <=? v | None => false end in
    {| handlerHeader :=
         if String.eqb cl "" || valid then handlerHeader st
         else delete "Content-Length" (handlerHeader st);
       wroteHeader := true;
       status := statusCode; sentHeader := handlerHeader st;
       written := written st;
       contentLength := if valid then declared else None;
       attempted := attempted st |}.

Definition withHeader (h : Header) (st : response) : response :=
  {| handlerHeader := h; wroteHeader := wroteHeader st; status := status st;
     sentHeader := sentHeader st; written := written st;
     contentLength := contentLength st; attempted := attempted st |}.

Definition step (st : response) (c : WriterCall) : response :=
  match c with
  | CallHeaderSet key value =>
      let key := textproto.CanonicalMIMEHeaderKey key in
      withHeader (<[key := [value]]> (handlerHeader st)) st
  | CallHeaderAdd key value =>
      let key := textproto.CanonicalMIMEHeaderKey key in
      withHeader (<[key := default [] (handlerHeader st !! key) ++ [value]]>
                    (handlerHeader st)) st
  | CallHeaderDel key =>
      withHeader (delete (textproto.CanonicalMIMEHeaderKey key) (handlerHeader st)) st
  | CallWriteHeader statusCode => sendHeader statusCode st
  | CallWrite b =>
      let st := sendHeader 200 st in
      if len b =? 0 then st
      else if negb (bodyAllowedForStatus (status st)) then st
      else
        let count := attempted st + len b in
        let refused :=
          match contentLength st with
          | Some declared => declared <? count
          | None => false
          end in
        {| handlerHeader := handlerHeader st; wroteHeader := wroteHeader st;
           status := status st; sentHeader := sentHeader st;
           written := if refused then written st else written st +:+ b;
           contentLength := contentLength st; attempted := count |}
  end.

Definition run (w : ResponseWriter) : response := fold_left step w newResponse.

(** When the handler returns, the server sends the header with status 200
    if the handler sent none. *)
Definition finishRequest (w : ResponseWriter) : response := sendHeader 200 (run w).

(** [w.Header()[key]] with its presence flag. *)
Definition headerOf (w : ResponseWriter) (key : string) : option (list string) :=
  handlerHeader (run w) !! key.

(** [http.HandlerFunc]; a handler returns the writer with its calls added. *)
Definition HandlerFunc : Type := ResponseWriter -> Request -> ResponseWriter.

(** The response to request [r] after the calls [w]: that of
    [finishRequest], without its body when the request is a HEAD request,
    for which the server drops the bytes written. *)
Definition respond (r : Request) (w : ResponseWriter) : response :=
  let resp := finishRequest w in
  if String.eqb (Method r) "HEAD"
  then {| handlerHeader := handlerHeader resp; wroteHeader := wroteHeader resp;
          status := status resp; sentHeader := sentHeader resp;
          written := EmptyString;
          contentLength := contentLength resp; attempted := attempted resp |}
  else resp.

(** [globalOptionsHandler], with which the server answers [OPTIONS *]
    itself. *)
Definition globalOptionsHandler : HandlerFunc :=
  fun w r => HeaderSet "Content-Length" "0" w.

(** [http.StatusText], for the codes the program and its libraries send. *)
Definition StatusText (code : Z) : string :=
  match code with
  | 200 => "OK"
  | 301 => "Moved Permanently"
  | 404 => "Not Found"
  | 405 => "Method Not Allowed"
  | 503 => "Service Unavailable"
  | _ => EmptyString
  end.

(** [http.Error(w, error, code)]: a [Content-Length] set for other content
    is deleted first. *)
Definition Error (w : ResponseWriter) (msg : string) (code : Z) : ResponseWriter :=
  let w := HeaderDel "Content-Length" w in
  let w := HeaderSet "Content-Type" "text/plain; charset=utf-8" w in
  let w := HeaderSet "X-Content-Type-Options" "nosniff" w in
  let w := WriteHeader code w in
  Fprintln msg w.

(** [http.NotFound] *)
Definition NotFound : HandlerFunc :=
  fun w r => Error w "404 page not found" 404.

(** [htmlEscape]: the five characters net/http escapes in the body of a
    redirect. *)
Fixpoint htmlEscape (s : string) : string :=
  match s with
  | EmptyString => EmptyString
  | String a s' =>
      (if Ascii.eqb a "&" then "&amp;"
       else if Ascii.eqb a "<" then "&lt;"
       else if Ascii.eqb a ">" then "&gt;"
       else if Ascii.eqb a "034" then "&#34;"
       else if Ascii.eqb a "'" then "&#39;"
       else String a EmptyString) +:+ htmlEscape s'
  end.

Definition hexDigit (n : N) : ascii :=
  match String.get (N.to_nat n) "0123456789abcdef" with
  | Some c => c
  | None => "0"%char
  end.

(** [hexEscapeNonASCII]: bytes from 0x80 up are written as a percent sign
    and their two lower-case hex digits. *)
Fixpoint hexEscapeNonASCII (s : string) : string :=
  match s with
  | EmptyString => EmptyString
  | String a s' =>
      let n := N_of_ascii a in
      (if (128 <=? n)%N
       then String "%" (String (hexDigit (n / 16)) (String (hexDigit (n mod 16)) EmptyString))
       else String a EmptyString) +:+ hexEscapeNonASCII s'
  end.

(** The part of [url] before its first [?], and the rest. *)
Fixpoint cutQuery (url : string) : string * string :=
  match url with
  | EmptyString => (EmptyString, EmptyString)
  | String a url' =>
      if Ascii.eqb a "?" then (EmptyString, url)
      else let '(p, q) := cutQuery url' in (String a p, q)
  end.

Definition firstByteIs (c : ascii) (s : string) : bool :=
  match s with
  | String a _ => Ascii.eqb a c
  | EmptyString => false
  end.

Section Redirect.
Context `{!url.Parser}.

(** The target of a redirect as [http.Redirect] rewrites it: a target
    that parses with neither scheme nor host is made absolute against the
    escaped path of the request and cleaned, keeping a trailing slash and
    the query. *)
Definition redirectTarget (r : Request) (url : string) : string :=
  match url.Parse url with
  | Some u =>
      if String.eqb (url.Scheme u) "" && String.eqb (url.Host u) "" then
        let oldpath :=
          if String.eqb (url.EscapedPath (URL r)) "" then "/"
          else url.EscapedPath (URL r) in
        let url :=
          if String.eqb url "" || negb (firstByteIs "/" url)
          then path.splitDir oldpath +:+ url else url in
        let '(url, query) := cutQuery url in
        let trailing := strings.HasSuffix url "/" in
        let url := path.Clean url in
        let url :=
          if trailing && negb (strings.HasSuffix url "/") then url +:+ "/"
          else url in
        url +:+ query
      else url
  | None => url
  end.

(** [http.Redirect(w, r, url, code)] *)
Definition Redirect (w : ResponseWriter) (r : Request) (url : string) (code : Z)
  : ResponseWriter :=
  let url := redirectTarget r url in
  let hadCT := bool_decide (is_Some (headerOf w "Content-Type")) in
  let w := HeaderSet "Location" (hexEscapeNonASCII url) w in
  let w :=
    if negb hadCT && (String.eqb (Method r) "GET" || String.eqb (Method r) "HEAD")
    then HeaderSet "Content-Type" "text/html; charset=utf-8" w else w in
  let w := WriteHeader code w in
  if negb hadCT && String.eqb (Method r) "GET"
  then Fprintln ("<a href=" +:+ String "034" (htmlEscape url)
                   +:+ String "034" ">" +:+ StatusText code
                   +:+ "</a>." +:+ String "010" EmptyString) w
  else w.

(** [http.RedirectHandler(url, code).ServeHTTP] *)
Definition RedirectHandler (url : string) (code : Z) : HandlerFunc :=
  fun w r => Redirect w r url code.
End Redirect.

(** [http.StripPrefix(prefix, h)] *)
Definition StripPrefix (prefix : string) (h : HandlerFunc) : HandlerFunc :=
  if String.eqb prefix "" then h
  else fun w r =>
    let p := strings.TrimPrefix (url.Path (URL r)) prefix in
    let rp := strings.TrimPrefix (url.RawPath (URL r)) prefix in
    if (len p <? len (url.Path (URL r)))
       && (String.eqb (url.RawPath (URL r)) "" || (len rp <? len (url.RawPath (URL r))))
    then h w {| Method := Method r; URL := url.withPath (URL r) p rp; ctx := ctx r |}
    else NotFound w r.

(** What the model leaves open of net/http: the file systems
    ([http.FileSystem], with [http.Dir] one of them) and the handler
    [http.FileServer(root)] that serves files out of one. *)
Class Files : Type := {
  FileSystem : Type;
  Dir : string -> FileSystem;
  FileServer : FileSystem -> HandlerFunc;
}.

End http.

(** ** Setup code: a router under construction, and panics

    Setup code runs against a router of type [S] that it updates in place
    and may panic; a panic leaves the router as it was when the panic was
    raised. *)
Definition Setup (S A : Type) : Type := S -> Result A * S.

Definition ret {S A} (a : A) : Setup S A := fun s => (Ok a, s).

Definition panic {S A} (p : Panic) : Setup S A := fun s => (Panicked p, s).

Definition bind {S A B} (c : Setup S A) (k : A -> Setup S B) : Setup S B :=
  fun s =>
    match c s with
    | (Ok a, s') => k a s'
    | (Panicked p, s') => (Panicked p, s')
    end.

(** An expression that may panic, evaluated inside setup code. *)
Definition eval {S A} (v : Result A) : Setup S A := fun s => (v, s).

Notation "x <- c1 ;; c2" := (bind c1 (fun x => c2))
  (at level 100, c1 at next level, right associativity).
Notation "c1 ;; c2" := (bind c1 (fun _ => c2))
  (at level 100, right associativity).

(** ** Package chi *)
Module chi.

Abbreviation Context := chiContext.

(** [chi.RouteContext(ctx)]: the routing context of a request, [nil] when
    the request did not come through a chi router. *)
Definition RouteContext (c : http.Context) : option Context := http.RouteCtx c.

(** [replaceWildcards]: replace [/*/] by [/] until none is left.  Each
    round shortens the pattern, so its length bounds the rounds. *)
Fixpoint replaceWildcardsN (rounds : nat) (p : string) : string :=
  match rounds with
  | O => p
  | S n =>
      if strings.Contains p "/*/"
      then replaceWildcardsN n (strings.ReplaceAll p "/*/" "/")
      else p
  end.

Definition replaceWildcards (p : string) : string :=
  replaceWildcardsN (String.length p) p.

(** [Context.RoutePattern()]: the patterns matched so far joined into
    one, as chi v5 computes it; the empty string on a [nil] context. *)
Definition RoutePattern (x : option Context) : string :=
  match x with
  | None => EmptyString
  | Some x =>
      let routePattern := strings.Join (RoutePatterns x) "" in
      let routePattern := replaceWildcards routePattern in
      if String.eqb routePattern "/" then routePattern
      else strings.TrimSuffix (strings.TrimSuffix routePattern "//") "/"
  end.

(** The interface [chi.Router], as far as [FileServer] uses it. *)
Class Router (R : Type) : Type := {
  Get : string -> http.HandlerFunc -> Setup R unit;
}.

(** *** [chi.Mux] *)

Definition Middleware : Type := http.HandlerFunc -> http.HandlerFunc.

Record Route : Type := {
  routeMethod : string;
  routePattern : string;
  routeHandler : http.HandlerFunc;
}.

(** A mux: its middleware stack, whether its handler chain is built
    ([mx.handler != nil], from the first route on), and the routes
    registered, oldest first.  Patterns with [{name}] parameters are
    outside the model; the program registers none. *)
Record Mux : Type := {
  middlewares : list Middleware;
  handlerBuilt : bool;
  routes : list Route;
}.

(** [chi.NewRouter()] *)
Definition NewRouter : Mux :=
  {| middlewares := []; handlerBuilt := false; routes := [] |}.

(** [mx.Use(middleware)] *)
Definition Use (m : Middleware) : Setup Mux unit :=
  fun mx =>
    if handlerBuilt mx
    then panic (PanicValue "chi: all middlewares must be defined before routes on a mux") mx
    else (Ok tt, {| middlewares := middlewares mx ++ [m];
                    handlerBuilt := handlerBuilt mx; routes := routes mx |}).

(** A star may only end a pattern. *)
Fixpoint wildcardLast (pattern : string) : bool :=
  match pattern with
  | EmptyString => true
  | String a EmptyString => true
  | String a rest => negb (Ascii.eqb a "*") && wildcardLast rest
  end.

(** [mx.handle(method, pattern, handler)]: a pattern must begin with a
    slash; the first route builds the handler chain. *)
Definition handle (method pattern : string) (h : http.HandlerFunc) : Setup Mux unit :=
  fun mx =>
    if negb (http.firstByteIs "/" pattern)
    then panic (PanicValue ("chi: routing pattern must begin with '/' in '"
                              +:+ pattern +:+ "'")) mx
    else
      let mx := {| middlewares := middlewares mx; handlerBuilt := true;
                   routes := routes mx |} in
      if negb (wildcardLast pattern)
      then panic (PanicValue "chi: wildcard '*' must be the last value in a route. trim trailing text or use a '{param}' instead") mx
      else (Ok tt, {| middlewares := middlewares mx; handlerBuilt := true;
                      routes := routes mx ++
                        [{| routeMethod := method; routePattern := pattern;
                            routeHandler := h |}] |}).

Definition methodMap : list string :=
  ["CONNECT"; "DELETE"; "GET"; "HEAD"; "OPTIONS"; "PATCH"; "POST"; "PUT";
   "QUERY"; "TRACE"].

Definition toUpperByte (a : ascii) : ascii :=
  let n := N_of_ascii a in
  if ((97 <=? n) && (n <=? 122))%N then ascii_of_N (n - 32) else a.

(** [strings.ToUpper], on ASCII letters. *)
Fixpoint ToUpper (s : string) : string :=
  match s with
  | EmptyString => EmptyString
  | String a s' => String (toUpperByte a) (ToUpper s')
  end.

(** [mx.Method(method, pattern, handler)] *)
Definition Method (method pattern : string) (h : http.HandlerFunc) : Setup Mux unit :=
  if bool_decide (ToUpper method ∈ methodMap)
  then handle (ToUpper method) pattern h
  else panic (PanicValue ("chi: '" +:+ method +:+ "' http method is not supported.")).

(** [mx.Get(pattern, handlerFn)] *)
Definition Mux_Get (pattern : string) (h : http.HandlerFunc) : Setup Mux unit :=
  handle "GET" pattern h.

#[global] Instance Mux_Router : Router Mux := {| Get := Mux_Get |}.

(** *** Routing *)

(** Whether a pattern (a literal path, or a prefix ending in a
    catch-all star) matches a route path. *)
Definition patternMatches (pattern routePath : string) : bool :=
  match strings.dropSuffix "*" pattern with
  | Some prefix => strings.HasPrefix routePath prefix
  | None => String.eqb pattern routePath
  end.

Definition isCatchAll (pattern : string) : bool := strings.HasSuffix pattern "*".

(** Whether route [new] is taken over route [old] when both match: a
    literal pattern before a catch-all, the longer catch-all before the
    shorter, and the later registration of the same pattern. *)
Definition prefers (new old : Route) : bool :=
  if isCatchAll (routePattern new)
  then isCatchAll (routePattern old)
       && (len (routePattern old) <=? len (routePattern new))
  else true.

(** [mx.tree.FindRoute(rctx, method, routePath)] *)
Definition FindRoute (rts : list Route) (method routePath : string) : option Route :=
  fold_left
    (fun best rt =>
       if String.eqb (routeMethod rt) method && patternMatches (routePattern rt) routePath
       then match best with
            | Some b => if prefers rt b then Some rt else Some b
            | None => Some rt
            end
       else best)
    rts None.

(** Whether some route matches the path under another method. *)
Definition methodNotAllowed (rts : list Route) (routePath : string) : bool :=
  existsb (fun rt => patternMatches (routePattern rt) routePath) rts.

(** The methods of the routes whose pattern matches the path, one for
    each pattern and method, in the order of registration (chi collects
    them from the endpoints of the matching nodes, in no fixed order). *)
Definition methodsAllowed (rts : list Route) (routePath : string) : list string :=
  (remove_dups
     ((fun rt => (routePattern rt, routeMethod rt))
        <$> filter (fun rt => patternMatches (routePattern rt) routePath = true) rts)).*2.

(** [mx.MethodNotAllowedHandler(methodsAllowed...)] of a mux without a
    custom one: an [Allow] header for each method, status 405, no body. *)
Definition MethodNotAllowed (allowed : list string) : http.HandlerFunc :=
  fun w r =>
    let w := fold_left (fun w method => http.HeaderAdd "Allow" method w) allowed w in
    http.Write EmptyString (http.WriteHeader 405 w).

Definition freshContext : Context :=
  {| RoutePath := EmptyString; RoutePatterns := [] |}.

(** [mx.routeHTTP]: route on the path the routing context carries, else on
    the request's raw path, else on its path; run the handler found with the
    matched pattern recorded in the routing context.  ([ServeHTTP] below
    always installs a routing context first.) *)
Definition routeHTTP (mx : Mux) : http.HandlerFunc :=
  fun w r =>
    let rctx := default freshContext (RouteContext (http.ctx r)) in
    let routePath :=
      if negb (String.eqb (RoutePath rctx) "") then RoutePath rctx
      else
        let p := if negb (String.eqb (url.RawPath (http.URL r)) "")
                 then url.RawPath (http.URL r) else url.Path (http.URL r) in
        if String.eqb p "" then "/" else p in
    if negb (bool_decide (http.Method r ∈ methodMap)) then MethodNotAllowed [] w r
    else
      match FindRoute (routes mx) (http.Method r) routePath with
      | Some rt =>
          let rctx := {| RoutePath := RoutePath rctx;
                         RoutePatterns := RoutePatterns rctx ++ [routePattern rt] |} in
          routeHandler rt w
            (http.WithContext r
               {| http.RouteCtx := Some rctx;
                  http.RequestID := http.RequestID (http.ctx r) |})
      | None =>
          if methodNotAllowed (routes mx) routePath
          then MethodNotAllowed (methodsAllowed (routes mx) routePath) w r
          else http.NotFound w r
      end.

(** [chain(middlewares, endpoint)]: the first middleware is outermost. *)
Definition chain (ms : list Middleware) (endpoint : http.HandlerFunc) : http.HandlerFunc :=
  foldr (fun m h => m h) endpoint ms.

(** [mx.ServeHTTP]: a mux without routes answers 404; a request that has
    no routing context yet gets a fresh one. *)
Definition ServeHTTP (mx : Mux) : http.HandlerFunc :=
  fun w r =>
    if negb (handlerBuilt mx) then http.NotFound w r
    else
      match RouteContext (http.ctx r) with
      | Some _ => chain (middlewares mx) (routeHTTP mx) w r
      | None =>
          chain (middlewares mx) (routeHTTP mx) w
            (http.WithContext r
               {| http.RouteCtx := Some freshContext;
                  http.RequestID := http.RequestID (http.ctx r) |})
      end.

End chi.

(** ** Package chi/middleware *)
Module middleware.

(** The request id that [RequestID] attaches (taken from the request's
    headers or generated from a process-wide counter) is left open. *)
Class IDs : Type := { requestIDOf : http.Request -> string }.

(** [middleware.RequestID]: runs the next handler with the request id in
    the request's context. *)
Definition RequestID `{!IDs} : chi.Middleware :=
  fun next w r =>
    next w (http.WithContext r
              {| http.RouteCtx := http.RouteCtx (http.ctx r);
                 http.RequestID := Some (requestIDOf r) |}).

(** The calls that chi's [WrapResponseWriter] passes on to the writer below
    for the calls made on it: headers go through; of the final statuses
    only the first goes through, interim ones all do; a write before any
    final status is preceded by [WriteHeader(200)].  [wroteHeader] tells
    whether the wrapper has passed a final status on. *)
Fixpoint forward (wroteHeader : bool) (calls : list http.WriterCall)
  : list http.WriterCall :=
  match calls with
  | [] => []
  | http.CallWriteHeader statusCode :: rest =>
      if http.informational statusCode
      then http.CallWriteHeader statusCode :: forward wroteHeader rest
      else if wroteHeader then forward wroteHeader rest
      else http.CallWriteHeader statusCode :: forward true rest
  | http.CallWrite b :: rest =>
      (if wroteHeader then [] else [http.CallWriteHeader 200])
        ++ http.CallWrite b :: forward true rest
  | call :: rest => call :: forward wroteHeader rest
  end.

(** [middleware.Logger]: prints a line per request to the process log, for
    which it runs the next handler on a fresh [WrapResponseWriter] around
    the writer.  The next handler sees the headers of the writer below; the
    calls it makes reach that writer as the wrapper passes them on. *)
Definition Logger : chi.Middleware :=
  fun next w r => w ++ forward false (drop (length w) (next w r)).

(** [middleware.Recoverer]: turns a panic of the next handler into a 500
    response.  Handlers in this model do not panic, which leaves the call
    of the next handler. *)
Definition Recoverer : chi.Middleware := fun next w r => next w r.

End middleware.

(** ** Package path/filepath *)
Module filepath.
(** [filepath.Join(elem...)] with slash as the separator: the non-empty
    elements joined and cleaned; the empty string when there is none. *)
Definition Join (elems : list string) : string :=
  match filter (fun e => e ≠ EmptyString) elems with
  | [] => EmptyString
  | nonEmpty => path.Clean (strings.Join nonEmpty "/")
  end.
End filepath.

(** * main.go *)

(** [type Handler func(w http.ResponseWriter, r *http.Request) error]: the
    writer comes back with the calls the function made on it, next to the
    error it returns ([None] for [nil]). *)
Definition Handler : Type :=
  http.ResponseWriter -> http.Request -> http.ResponseWriter * option error.

(** [func (h Handler) ServeHTTP(w, r)] *)
Definition ServeHTTP (h : Handler) : http.HandlerFunc :=
  fun w r =>
    match h w r with
    | (w, Some err) =>
        (* handle returned error here. *)
        let w := http.WriteHeader 503 w in
        http.Write "bad" w
    | (w, None) => w
    end.

(** [func customHandler(w, r) error] *)
Definition customHandler : Handler :=
  fun w r =>
    let q := url.Get (url.Query (http.URL r)) "err" in
    if negb (String.eqb q "") then (w, Some (errors.New q))
    else
      let w := http.Write "A whole bunch of messages and such" w in
      (w, None).

Section Program.
Context `{!url.Parser} `{!http.Files} `{!middleware.IDs}.

(** The handler [FileServer] registers on the wildcard route. *)
Definition serveFiles (root : http.FileSystem) : http.HandlerFunc :=
  fun w r =>
    let rctx := chi.RouteContext (http.ctx r) in
    let pathPrefix := strings.TrimSuffix (chi.RoutePattern rctx) "/*" in
    let fs := http.StripPrefix pathPrefix (http.FileServer root) in
    fs w r.

(** [func FileServer(r chi.Router, path string, root http.FileSystem)] *)
Definition FileServer {R : Type} `{!chi.Router R}
    (path : string) (root : http.FileSystem) : Setup R unit :=
  if strings.ContainsAny path "{}*"
  then panic (PanicValue "FileServer does not permit any URL parameters.")
  else
    redirect <-
      (if negb (String.eqb path "/")
       then (last <- eval (index path (len path - 1)) ;;
             ret (negb (Ascii.eqb last "/")))
       else ret false) ;;
    path <-
      (if redirect : bool
       then (chi.Get path (http.RedirectHandler (path +:+ "/") 301) ;;
             ret (path +:+ "/"))
       else ret path) ;;
    let path := path +:+ "*" in
    chi.Get path (serveFiles root).

(** The handler of [GET /]. *)
Definition hello : http.HandlerFunc :=
  fun w r => http.Write "hello world" w.

(** [func main()], up to the call of [http.ListenAndServe]: the setup of
    the router [r], run on [chi.NewRouter()].  [workDir] is what
    [os.Getwd()] returned. *)
Definition main (workDir : string) : Setup chi.Mux unit :=
  chi.Use middleware.RequestID ;;
  chi.Use middleware.Logger ;;
  chi.Use middleware.Recoverer ;;
  chi.Mux_Get "/" hello ;;
  chi.Method "GET" "/picture" (ServeHTTP customHandler) ;;
  let filesDir := http.Dir (filepath.Join [workDir; "data"]) in
  FileServer "/files" filesDir.

(** [http.ListenAndServe(addr, r)]: each request is served by the router
    on a writer of its own, and the response is finished when the router
    returns; the request [OPTIONS *] is answered by the server itself. *)
Definition serve (r : chi.Mux) (req : http.Request) : http.response :=
  let handler :=
    if String.eqb (http.Method req) "OPTIONS"
       && String.eqb (url.Path (http.URL req)) "*"
    then http.globalOptionsHandler else chi.ServeHTTP r in
  http.respond req (handler [] req).

End Program.

(** The router [main] sets up. *)
Definition router `{!url.Parser} `{!http.Files} `{!middleware.IDs}
    (workDir : string) : chi.Mux :=
  (main workDir chi.NewRouter).2.

(** A request as net/http hands it to the router for the request line
    [method target]: the target needed no escaping (no raw path is kept), and
    the context holds no routing context yet.  Query, scheme, host and
    request id are free. *)
Definition incoming (method target : string) (req : http.Request) : Prop :=
  http.Method req = method
  ∧ url.Path (http.URL req) = target
  ∧ url.RawPath (http.URL req) = EmptyString
  ∧ http.RouteCtx (http.ctx req) = None.

(** The request a route's handler receives once the middlewares and the
    router of [main] have run on [req] and matched [pattern]. *)
Definition routed `{!middleware.IDs} (pattern : string) (req : http.Request)
  : http.Request :=
  let fresh := {| http.RouteCtx := Some chi.freshContext;
                  http.RequestID := http.RequestID (http.ctx req) |} in
  http.WithContext req
    {| http.RouteCtx :=
         Some {| RoutePath := EmptyString; RoutePatterns := [pattern] |};
       http.RequestID := Some (middleware.requestIDOf (http.WithContext req fresh)) |}.

(** ** The vocabulary of the properties *)

(** Whether the wrapped function made a call on the writer, and whether the
    adapter made one after it. *)
Definition wrappedWrote (h : Handler) (w : http.ResponseWriter) (r : http.Request) : bool :=
  bool_decide ((h w r).1 ≠ w).

Definition adapterWrote (h : Handler) (w : http.ResponseWriter) (r : http.Request) : bool :=
  bool_decide (ServeHTTP h w r ≠ (h w r).1).

(** The mount path with its trailing slash, as [FileServer] has it before it
    appends the star. *)
Definition normalizedPath (path : string) : string :=
  if String.eqb path "/" || strings.HasSuffix path "/" then path else path +:+ "/".

(** Whether a string holds bytes below 0x80 only. *)
Fixpoint isASCII (s : string) : bool :=
  match s with
  | EmptyString => true
  | String a s' => (N_of_ascii a <? 128)%N && isASCII s'
  end.

(** The path a mux routes a request on. *)
Definition routePathOf (r : http.Request) : string :=
  let rctx := default chi.freshContext (chi.RouteContext (http.ctx r)) in
  if negb (String.eqb (RoutePath rctx) "") then RoutePath rctx
  else
    let p := if negb (String.eqb (url.RawPath (http.URL r)) "")
             then url.RawPath (http.URL r) else url.Path (http.URL r) in
    if String.eqb p "" then "/" else p.

(** A middleware that hands on requests routed on the path of the request
    it received: what it does with a request depends on the next handler
    only through what that handler does with requests of the same route
    path. *)
Definition keepsRoutePath (m : chi.Middleware) : Prop :=
  ∀ (next next' : http.HandlerFunc) (w : http.ResponseWriter) (r : http.Request),
    (∀ w' r', routePathOf r' = routePathOf r → next w' r' = next' w' r') →
    m next w r = m next' w r.

(** ** Sample instances of the parts left open, for closed examples *)
Module Sample.

(** A parser that accepts every string as a path without scheme or host. *)
Definition parser : url.Parser :=
  {| url.Parse := fun s =>
       Some {| url.Scheme := EmptyString; url.Host := EmptyString;
               url.Path := s; url.RawPath := EmptyString;
               url.RawQuery := EmptyString |};
     url.EscapedPath := url.Path |}.

(** File systems named by their directory; the file server answers with
    the directory and the path it was asked for. *)
Definition files : http.Files :=
  {| http.FileSystem := string;
     http.Dir := fun dir => dir;
     http.FileServer := fun root w r =>
       http.Write (root +:+ url.Path (http.URL r)) w |}.

Definition ids : middleware.IDs :=
  {| middleware.requestIDOf := fun _ => "host/000001" |}.

(** The request [method target?rawQuery]. *)
Definition request (method target rawQuery : string) : http.Request :=
  {| http.Method := method;
     http.URL := {| url.Scheme := EmptyString; url.Host := EmptyString;
                    url.Path := target; url.RawPath := EmptyString;
                    url.RawQuery := rawQuery |};
     http.ctx := {| http.RouteCtx := None; http.RequestID := None |} |}.

(** A wrapped function that writes and then fails. *)
Definition writeThenFail : Handler :=
  fun w r => (http.Write "partial" w, Some (errors.New "late")).

(** A wrapped function that succeeds without writing. *)
Definition silent : Handler := fun w r => (w, None).

End Sample.

(** * Properties *)

(** ** The library models on examples *)

Example strings_examples :
  strings.TrimSuffix "/files/*" "/*" = "/files"
  ∧ strings.TrimSuffix "/*" "/*" = EmptyString
  ∧ strings.TrimSuffix "/files" "/*" = "/files"
  ∧ strings.TrimPrefix "/files/a.txt" "/files" = "/a.txt"
  ∧ strings.ContainsAny "/files" "{}*" = false
  ∧ strings.ContainsAny "/users/{id}" "{}*" = true
  ∧ strings.ReplaceAll "/a/*/b/*/c/*" "/*/" "/" = "/a/b/c/*"
  ∧ strings.splitByte "/" "/a//b" = [EmptyString; "a"; EmptyString; "b"].
Proof. repeat split; reflexivity. Qed.

Example Clean_examples :
  path.Clean <$> ["/files/"; "/a//b/./c/.."; "a/../../b"; "/../x"; EmptyString; "/"; "a/.."]
  = ["/files"; "/a/b"; "../b"; "/x"; "."; "/"; "."]
  ∧ path.splitDir <$> ["/a/b"; "a"; "/"; "/a/"] = ["/a/"; EmptyString; "/"; "/a/"]
  ∧ filepath.Join ["/srv/app"; "data"] = "/srv/app/data"
  ∧ filepath.Join [EmptyString; "data"] = "data".
Proof. repeat split; reflexivity. Qed.

Example RoutePattern_examples :
  chi.RoutePattern (Some {| RoutePath := EmptyString; RoutePatterns := ["/files/*"] |})
  = "/files/*"
  ∧ chi.RoutePattern
      (Some {| RoutePath := "/files/a"; RoutePatterns := ["/api/*"; "/files/*"] |})
    = "/api/files/*"
  ∧ chi.RoutePattern (Some {| RoutePath := EmptyString; RoutePatterns := ["/"] |}) = "/"
  ∧ chi.RoutePattern None = EmptyString.
Proof. repeat split; reflexivity. Qed.

(** A status sent after the first write is ignored; a handler that calls
    nothing gets status 200 and an empty body. *)
Example response_examples :
  (let resp := http.finishRequest
                 (http.WriteHeader 503 (http.Write "first" [])) in
   http.status resp = 200 ∧ http.written resp = "first")
  ∧ (let resp := http.finishRequest [] in
     http.status resp = 200 ∧ http.written resp = EmptyString)
  ∧ (let resp := http.finishRequest (http.Write "late" (http.WriteHeader 404 [])) in
     http.status resp = 404 ∧ http.written resp = "late").
Proof. repeat split; reflexivity. Qed.

(** An interim status fixes nothing; a status that allows no body refuses
    the bytes written; bytes beyond a declared [Content-Length] are refused;
    header keys are canonical, however the handler spells them. *)
Example response_cases :
  (let resp := http.finishRequest
                 (http.Write "body" (http.WriteHeader 503 (http.WriteHeader 103 []))) in
   http.status resp = 503 ∧ http.written resp = "body")
  ∧ (let resp := http.finishRequest (http.Write "late" (http.WriteHeader 204 [])) in
     http.status resp = 204 ∧ http.written resp = EmptyString)
  ∧ (let resp := http.finishRequest
                   (http.Write "cd" (http.Write "ab"
                      (http.HeaderSet "content-length" "3" []))) in
     http.status resp = 200 ∧ http.written resp = "ab"
     ∧ http.sentHeader resp !! "Content-Length" = Some ["3"])
  ∧ textproto.CanonicalMIMEHeaderKey <$> ["x-content-type-options"; "ETAG"; "a b"]
    = ["X-Content-Type-Options"; "Etag"; "a b"].
Proof. repeat split; reflexivity. Qed.

(** Query strings as [r.URL.Query()] reads them: pairs with a semicolon or
    a percent sign that starts no escape are left out. *)
Example Query_examples :
  url.ParseQuery "err=boom&x=1&err=%41+b" !! "err" = Some ["boom"; "A b"]
  ∧ url.Get (url.ParseQuery "err=&err=late") "err" = EmptyString
  ∧ url.ParseQuery "err=%zz" !! "err" = None
  ∧ url.ParseQuery "err=a;b" !! "err" = None
  ∧ url.ParseQuery "x=1&&=v&k" = {[ "x" := ["1"]; EmptyString := ["v"]; "k" := [EmptyString] ]}.
Proof. repeat split; by vm_compute. Qed.

(** The router of [main] on a path it does not know and on a method no
    route has. *)
Example router_examples :
  let r := @router Sample.parser Sample.files Sample.ids "/srv" in
  http.status (serve r (Sample.request "GET" "/nope" EmptyString)) = 404
  ∧ http.status (serve r (Sample.request "POST" "/picture" EmptyString)) = 405
  ∧ http.status (serve r (Sample.request "GET" "/files/" EmptyString)) = 200
  ∧ http.written (serve r (Sample.request "GET" "/files/" EmptyString)) = "/srv/data/"
  ∧ http.sentHeader (serve r (Sample.request "POST" "/picture" EmptyString)) !! "Allow"
    = Some ["GET"]
  ∧ http.status (serve r (Sample.request "OPTIONS" "*" EmptyString)) = 200
  ∧ http.status (serve r (Sample.request "OPTIONS" "/" EmptyString)) = 405.
Proof. by vm_compute. Qed.

(** ** The response writer *)

Lemma run_snoc (w : http.ResponseWriter) (c : http.WriterCall) :
  http.run (w ++ [c]) = http.step (http.run w) c.
Proof. unfold http.run. by rewrite fold_left_app. Qed.

(** Nothing is written before the header is sent. *)
Lemma run_unsent_empty (w : http.ResponseWriter) :
  http.wroteHeader (http.run w) = false → http.written (http.run w) = EmptyString.
Proof.
  induction w as [|c w IH] using rev_ind; [done|].
  rewrite run_snoc. destruct c as [k v|k v|k|code|b]; cbn [http.step].
  - exact IH.
  - exact IH.
  - exact IH.
  - unfold http.sendHeader.
    destruct (http.wroteHeader (http.run w)) eqn:E; [congruence|].
    destruct (http.informational code); cbn; [by rewrite E|done].
  - unfold http.sendHeader.
    destruct (http.wroteHeader (http.run w)) eqn:E.
    + repeat case_match; cbn; congruence.
    + cbn. repeat case_match; cbn; congruence.
Qed.

Lemma sendHeader_wrote (statusCode : Z) (st : http.response) :
  http.wroteHeader st = true → http.sendHeader statusCode st = st.
Proof. intros Hw. unfold http.sendHeader. by rewrite Hw. Qed.

Lemma sendHeader_informational (statusCode : Z) (st : http.response) :
  http.informational statusCode = true → http.sendHeader statusCode st = st.
Proof. intros Hi. unfold http.sendHeader. rewrite Hi. by destruct (http.wroteHeader st). Qed.

Lemma sendHeader_sends (statusCode : Z) (st : http.response) :
  http.informational statusCode = false →
  http.wroteHeader (http.sendHeader statusCode st) = true.
Proof.
  intros Hi. unfold http.sendHeader. rewrite Hi.
  by destruct (http.wroteHeader st) eqn:E.
Qed.

Lemma step_Write_sends (st : http.response) (b : string) :
  http.wroteHeader (http.step st (http.CallWrite b)) = true.
Proof.
  cbn [http.step]. pose proof (sendHeader_sends 200 st eq_refl) as Hs.
  by repeat case_match.
Qed.

(** Once the header is sent, no call changes the status or the headers
    sent. *)
Lemma step_sent (st : http.response) (c : http.WriterCall) :
  http.wroteHeader st = true →
  http.wroteHeader (http.step st c) = true
  ∧ http.status (http.step st c) = http.status st
  ∧ http.sentHeader (http.step st c) = http.sentHeader st.
Proof.
  intros Hw. destruct c as [k v|k v|k|code|b]; cbn [http.step].
  - done.
  - done.
  - done.
  - by rewrite sendHeader_wrote.
  - rewrite sendHeader_wrote by done. by repeat case_match.
Qed.

Lemma fold_sent (calls : list http.WriterCall) (st : http.response) :
  http.wroteHeader st = true →
  http.wroteHeader (fold_left http.step calls st) = true
  ∧ http.status (fold_left http.step calls st) = http.status st
  ∧ http.sentHeader (fold_left http.step calls st) = http.sentHeader st.
Proof.
  revert st. induction calls as [|c calls IH]; intros st Hw; [done|].
  cbn [fold_left]. destruct (step_sent st c Hw) as (Hw' & Hs & Hh).
  destruct (IH _ Hw') as (? & ? & ?). split; [done|]. split; congruence.
Qed.

(** The server's writer interprets what the wrapper of the logger passes on
    as it would interpret the calls made on the wrapper. *)
Lemma fold_forward (calls : list http.WriterCall) (wroteHeader : bool)
    (st : http.response) :
  (wroteHeader = true → http.wroteHeader st = true) →
  fold_left http.step (middleware.forward wroteHeader calls) st
  = fold_left http.step calls st.
Proof.
  revert wroteHeader st.
  induction calls as [|c calls IH]; intros wroteHeader st Hflag; [done|].
  destruct c as [k v|k v|k|code|b]; cbn [middleware.forward fold_left].
  - by apply IH.
  - by apply IH.
  - by apply IH.
  - destruct (http.informational code) eqn:Ei.
    + cbn [fold_left]. apply IH. cbn [http.step].
      by rewrite sendHeader_informational.
    + destruct wroteHeader.
      * cbn [http.step]. rewrite sendHeader_wrote by auto. by apply IH.
      * cbn [fold_left]. apply IH. intros _. by apply sendHeader_sends.
  - assert (fold_left http.step
              ((if wroteHeader then [] else [http.CallWriteHeader 200])
               ++ http.CallWrite b :: middleware.forward true calls) st
            = fold_left http.step (middleware.forward true calls)
                (http.step st (http.CallWrite b))) as ->.
    { destruct wroteHeader; [done|].
      cbn [app fold_left]. f_equal.
      cbn [http.step].
      by rewrite (sendHeader_wrote 200 (http.sendHeader 200 st))
        by (by apply sendHeader_sends). }
    apply IH. intros _. apply step_Write_sends.
Qed.

Lemma finishRequest_forward (calls : list http.WriterCall) :
  http.finishRequest (middleware.forward false calls) = http.finishRequest calls.
Proof.
  unfold http.finishRequest, http.run. by rewrite fold_forward.
Qed.

Lemma respond_forward (r : http.Request) (calls : list http.WriterCall) :
  http.respond r (middleware.forward false calls) = http.respond r calls.
Proof. unfold http.respond. by rewrite finishRequest_forward. Qed.

(** The first final status, with no [Content-Length] declared. *)
Lemma sendHeader_fresh (statusCode : Z) (st : http.response) :
  http.wroteHeader st = false →
  http.informational statusCode = false →
  http.handlerHeader st !! "Content-Length" = None →
  http.sendHeader statusCode st
  = {| http.handlerHeader := http.handlerHeader st; http.wroteHeader := true;
       http.status := statusCode; http.sentHeader := http.handlerHeader st;
       http.written := http.written st; http.contentLength := None;
       http.attempted := http.attempted st |}.
Proof.
  intros Hw Hi Hcl. unfold http.sendHeader, http.headerGet.
  by rewrite Hw, Hi, Hcl.
Qed.

(** The response after a final status and any further calls. *)
Lemma finishRequest_after (pre post : list http.WriterCall) :
  http.wroteHeader (http.run pre) = true →
  http.status (http.finishRequest (pre ++ post)) = http.status (http.run pre)
  ∧ http.sentHeader (http.finishRequest (pre ++ post)) = http.sentHeader (http.run pre).
Proof.
  intros Hw. unfold http.finishRequest, http.run in *.
  rewrite fold_left_app.
  destruct (fold_sent post _ Hw) as (Hw' & Hs & Hh).
  by rewrite sendHeader_wrote.
Qed.

Lemma ServeHTTP_error (h : Handler) w r w' err :
  h w r = (w', Some err) →
  ServeHTTP h w r = w' ++ [http.CallWriteHeader 503; http.CallWrite "bad"].
Proof.
  intros Hh. unfold ServeHTTP. rewrite Hh.
  unfold http.Write, http.WriteHeader. by rewrite <- app_assoc.
Qed.


Lemma ServeHTTP_nil (h : Handler) w r w' :
  h w r = (w', None) → ServeHTTP h w r = w'.
Proof. intros Hh. unfold ServeHTTP. by rewrite Hh. Qed.

(** ** The router of [main] *)

Section Router.
Context `{!url.Parser} `{!http.Files} `{!middleware.IDs}.

(** [main] sets the router up without panicking: three middlewares, then
    the four routes in the order of the source. *)
Lemma main_router (workDir : string) :
  main workDir chi.NewRouter =
  (Ok tt,
   {| chi.middlewares :=
        [middleware.RequestID; middleware.Logger; middleware.Recoverer];
      chi.handlerBuilt := true;
      chi.routes :=
        [ {| chi.routeMethod := "GET"; chi.routePattern := "/";
             chi.routeHandler := hello |};
          {| chi.routeMethod := "GET"; chi.routePattern := "/picture";
             chi.routeHandler := ServeHTTP customHandler |};
          {| chi.routeMethod := "GET"; chi.routePattern := "/files";
             chi.routeHandler := http.RedirectHandler "/files/" 301 |};
          {| chi.routeMethod := "GET"; chi.routePattern := "/files/*";
             chi.routeHandler :=
               serveFiles (http.Dir (filepath.Join [workDir; "data"])) |} ] |}).
Proof. reflexivity. Qed.

(** What the router of [main] does with a request that comes in from the
    server: the request id is attached, the wrapper of the logger stands
    between the handlers and the server's writer, and the routes decide. *)
Lemma router_serves (workDir method target : string) (req : http.Request) :
  incoming method target req →
  target ≠ EmptyString →
  chi.ServeHTTP (router workDir) [] req
  = middleware.forward false
      (if negb (bool_decide (method ∈ chi.methodMap))
       then chi.MethodNotAllowed [] [] req
       else match chi.FindRoute (chi.routes (router workDir)) method target with
            | Some rt => chi.routeHandler rt [] (routed (chi.routePattern rt) req)
            | None =>
                if chi.methodNotAllowed (chi.routes (router workDir)) target
                then chi.MethodNotAllowed
                       (chi.methodsAllowed (chi.routes (router workDir)) target) [] req
                else http.NotFound [] req
            end).
Proof.
  intros (Hm & Hp & Hrp & Hc) Hne.
  unfold router in *. rewrite main_router in *.
  destruct req as [m [sch host p rp q] [rc rid]]; simpl in *; subst.
  unfold chi.ServeHTTP; simpl.
  unfold middleware.RequestID, middleware.Logger, middleware.Recoverer.
  unfold chi.routeHTTP; simpl.
  destruct (String.eqb target "") eqn:E.
  { apply String.eqb_eq in E. done. }
  simpl. rewrite drop_0. reflexivity.
Qed.

(** A GET request for a path the router knows reaches the handler of the
    route [FindRoute] picks, with the matched pattern in its context. *)
Lemma router_dispatch (workDir target : string) (rt : chi.Route) req :
  incoming "GET" target req →
  target ≠ EmptyString →
  chi.FindRoute (chi.routes (router workDir)) "GET" target = Some rt →
  chi.ServeHTTP (router workDir) [] req
  = middleware.forward false
      (chi.routeHandler rt [] (routed (chi.routePattern rt) req)).
Proof.
  intros Hin Hne Hfind.
  rewrite (router_serves workDir "GET" target req Hin Hne).
  rewrite bool_decide_eq_true_2 by (unfold chi.methodMap; set_solver).
  cbn [negb]. by rewrite Hfind.
Qed.
End Router.

(** ** The error-returning handler adapter *)

Lemma customHandler_fails w r :
  url.Get (url.Query (http.URL r)) "err" ≠ EmptyString →
  customHandler w r = (w, Some (errors.New (url.Get (url.Query (http.URL r)) "err"))).
Proof.
  intros Hq. unfold customHandler.
  destruct (String.eqb _ "") eqn:E; [|done].
  by apply String.eqb_eq in E.
Qed.

Lemma customHandler_succeeds w r :
  url.Get (url.Query (http.URL r)) "err" = EmptyString →
  customHandler w r
  = (w ++ [http.CallWrite "A whole bunch of messages and such"], None).
Proof. intros Hq. unfold customHandler. by rewrite Hq. Qed.

Lemma Get_absent (v : url.Values) key : v !! key = None → url.Get v key = EmptyString.
Proof. intros Hv. unfold url.Get. by rewrite Hv. Qed.

Lemma Get_first (v : url.Values) key x rest :
  v !! key = Some (x :: rest) → url.Get v key = x.
Proof. intros Hv. unfold url.Get. by rewrite Hv. Qed.

(** A request line other than [OPTIONS *] goes to the router. *)
Lemma serve_router (mx : chi.Mux) (req : http.Request) :
  http.firstByteIs "/" (url.Path (http.URL req)) = true →
  serve mx req = http.respond req (chi.ServeHTTP mx [] req).
Proof.
  intros Hslash. unfold serve.
  destruct (url.Path (http.URL req)) as [|c p] eqn:E; [done|].
  cbn in Hslash. apply Ascii.eqb_eq in Hslash as ->.
  by rewrite andb_false_r.
Qed.

Lemma serve_GET (mx : chi.Mux) (target : string) (req : http.Request) :
  incoming "GET" target req →
  http.firstByteIs "/" target = true →
  serve mx req = http.finishRequest (chi.ServeHTTP mx [] req).
Proof.
  intros (Hm & Hp & _) Hslash.
  rewrite serve_router by (by rewrite Hp).
  unfold http.respond. by rewrite Hm.
Qed.

(** [ContainsAny] finds every byte of [chars] that occurs in [s]. *)
Lemma ContainsAny_byte (s chars : string) (c : ascii) :
  strings.containsByte c s = true → strings.containsByte c chars = true →
  strings.ContainsAny s chars = true.
Proof.
  intros Hs Hc. induction s as [|a s IH]; [done|].
  cbn in *. apply orb_true_iff in Hs as [Ha|Hs].
  - apply Ascii.eqb_eq in Ha as ->. by rewrite Hc.
  - rewrite IH by done. by rewrite orb_true_r.
Qed.

Lemma ContainsAny_false_byte (s chars : string) (c : ascii) :
  strings.ContainsAny s chars = false → strings.containsByte c chars = true →
  strings.containsByte c s = false.
Proof.
  intros Hs Hc. destruct (strings.containsByte c s) eqn:E; [|done].
  by rewrite (ContainsAny_byte s chars c E Hc) in Hs.
Qed.

(** ** Query strings *)




Section RouterResponses.
Context `{!url.Parser} `{!http.Files} `{!middleware.IDs}.

(** C7: every request [GET /] is answered with status 200 and the body
    [hello world], by the router that [main] sets up without panicking. *)
Theorem C7_get_root_says_hello (workDir : string) (req : http.Request) :
  incoming "GET" "/" req →
  (main workDir chi.NewRouter).1 = Ok tt
  ∧ http.status (serve (router workDir) req) = 200
  ∧ http.written (serve (router workDir) req) = "hello world".
Proof.
  intros Hin. split; [by rewrite main_router|].
  rewrite (serve_GET _ "/" req Hin eq_refl).
  erewrite router_dispatch; [|exact Hin|done|unfold router; by rewrite main_router].
  by vm_compute.
Qed.

(** The calls that reach the server's writer for a request [GET /picture]
    without a value of [err]. *)
Lemma picture_without_err (workDir : string) (req : http.Request) :
  incoming "GET" "/picture" req →
  url.Get (url.Query (http.URL req)) "err" = EmptyString →
  chi.ServeHTTP (router workDir) [] req
  = [http.CallWriteHeader 200;
     http.CallWrite "A whole bunch of messages and such"].
Proof.
  intros Hin Hq.
  erewrite router_dispatch; [|exact Hin|done|unfold router; by rewrite main_router].
  cbn [chi.routeHandler chi.routePattern].
  rewrite (ServeHTTP_nil customHandler [] (routed "/picture" req)
             [http.CallWrite "A whole bunch of messages and such"]); [done|].
  exact (customHandler_succeeds [] (routed "/picture" req) Hq).
Qed.

(** C5: every request [GET /picture] whose [err] query parameter is absent
    or has the empty string as its value is answered with status 200 and the
    body [A whole bunch of messages and such]; the two cases cannot be told
    apart, the server's writer receives the same calls for both. *)
Theorem C5_picture_without_err (workDir : string) (req : http.Request) :
  incoming "GET" "/picture" req →
  (url.Query (http.URL req) !! "err" = None
   ∨ ∃ rest, url.Query (http.URL req) !! "err" = Some (EmptyString :: rest)) →
  http.status (serve (router workDir) req) = 200
  ∧ http.written (serve (router workDir) req)
    = "A whole bunch of messages and such"
  ∧ ∀ req' : http.Request,
      incoming "GET" "/picture" req' →
      (url.Query (http.URL req') !! "err" = None
       ∨ ∃ rest, url.Query (http.URL req') !! "err" = Some (EmptyString :: rest)) →
      chi.ServeHTTP (router workDir) [] req'
      = chi.ServeHTTP (router workDir) [] req.
Proof.
  assert (∀ r : http.Request,
            (url.Query (http.URL r) !! "err" = None
             ∨ ∃ rest, url.Query (http.URL r) !! "err" = Some (EmptyString :: rest)) →
            url.Get (url.Query (http.URL r)) "err" = EmptyString) as Hget.
  { intros r [Hnone|[rest Hsome]];
      [by apply Get_absent|by apply Get_first with rest]. }
  intros Hin Herr.
  pose proof (picture_without_err workDir req Hin (Hget req Herr)) as Hcalls.
  rewrite (serve_GET _ "/picture" req Hin eq_refl), Hcalls.
  split; [by vm_compute|]. split; [by vm_compute|].
  intros req' Hin' Herr'.
  by rewrite (picture_without_err workDir req' Hin' (Hget req' Herr')).
Qed.

End RouterResponses.


(** C10: [customHandler] makes no call on the writer before it fails: with a
    non-empty [err] parameter it returns the writer as it received it, with
    an error, so that all the client sees (status 503, body [bad]) is
    written by the adapter; it writes its body only on the path that returns
    [nil]. *)
Theorem C10_customHandler_fails_before_writing (w : http.ResponseWriter) (r : http.Request) :
  let q := url.Get (url.Query (http.URL r)) "err" in
  (q ≠ EmptyString →
     customHandler w r = (w, Some (errors.New q))
     ∧ ServeHTTP customHandler w r
       = w ++ [http.CallWriteHeader 503; http.CallWrite "bad"]
     ∧ http.status (http.finishRequest (ServeHTTP customHandler [] r)) = 503
     ∧ http.written (http.finishRequest (ServeHTTP customHandler [] r)) = "bad")
  ∧ (q = EmptyString →
     customHandler w r
     = (w ++ [http.CallWrite "A whole bunch of messages and such"], None))
  ∧ ((customHandler w r).1 ≠ w → (customHandler w r).2 = None).
Proof.
  intros q. split; [|split].
  - intros Hq. split; [by apply customHandler_fails|].
    split; [eapply ServeHTTP_error; by apply customHandler_fails|].
    erewrite ServeHTTP_error; [|by apply customHandler_fails]. by vm_compute.
  - apply customHandler_succeeds.
  - intros Hw. destruct (decide (q = EmptyString)) as [Hq|Hq].
    + by rewrite customHandler_succeeds.
    + rewrite customHandler_fails in Hw; done.
Qed.

(** ** Strings *)

Lemma app_cons (a : ascii) (s t : string) : String a s +:+ t = String a (s +:+ t).
Proof. reflexivity. Qed.

Lemma app_empty (t : string) : EmptyString +:+ t = t.
Proof. reflexivity. Qed.

Lemma dropPrefix_app (p s : string) : strings.dropPrefix p (p +:+ s) = Some s.
Proof.
  induction p as [|a p IH]; [done|].
  rewrite app_cons. cbn. by rewrite Ascii.eqb_refl.
Qed.

Lemma string_length_app (s t : string) :
  String.length (s +:+ t) = (String.length s + String.length t)%nat.
Proof.
  induction s as [|a s IH]; [done|].
  rewrite app_cons. cbn. by rewrite IH.
Qed.

Lemma eqb_longer (a : ascii) (p suf : string) :
  String.eqb (String a (p +:+ suf)) suf = false.
Proof.
  apply String.eqb_neq. intros Heq.
  apply (f_equal String.length) in Heq. cbn in Heq. rewrite string_length_app in Heq. lia.
Qed.

Lemma dropSuffix_app (p suf : string) : strings.dropSuffix suf (p +:+ suf) = Some p.
Proof.
  induction p as [|a p IH].
  - rewrite app_empty. destruct suf; cbn; by rewrite ?String.eqb_refl, ?Ascii.eqb_refl.
  - rewrite app_cons.
    cbn [strings.dropSuffix]. rewrite eqb_longer. by rewrite IH.
Qed.

Lemma dropSuffix_Some (suf s p : string) :
  strings.dropSuffix suf s = Some p → s = p +:+ suf.
Proof.
  revert p. induction s as [|a s IH]; intros p.
  - cbn. destruct suf; cbn; [|done]. by intros [= <-].
  - cbn [strings.dropSuffix].
    destruct (String.eqb (String a s) suf) eqn:E.
    + apply String.eqb_eq in E. by intros [= <-].
    + destruct (strings.dropSuffix suf s) as [p'|] eqn:Hd; [|done].
      intros [= <-]. rewrite app_cons. f_equal. by apply IH.
Qed.

(** The last byte of a non-empty string is a slash exactly when the string
    has the suffix [/]. *)
Lemma get_last_slash (a : ascii) (s : string) :
  ∃ c, String.get (String.length s) (String a s) = Some c
       ∧ Ascii.eqb c "/" = strings.HasSuffix (String a s) "/".
Proof.
  revert a. induction s as [|b s IH]; intros a.
  - exists a. split; [done|].
    unfold strings.HasSuffix. cbn.
    destruct (Ascii.eqb a "/"); cbn; done.
  - destruct (IH b) as (c & Hget & Hc). exists c. split; [exact Hget|].
    rewrite Hc. unfold strings.HasSuffix.
    change (strings.dropSuffix "/" (String a (String b s)))
      with (if String.eqb (String a (String b s)) "/" then Some EmptyString
            else String a <$> strings.dropSuffix "/" (String b s)).
    replace (String.eqb (String a (String b s)) "/") with false;
      [|cbn; by destruct (Ascii.eqb a "/")].
    by destruct (strings.dropSuffix "/" (String b s)).
Qed.

Lemma index_last (s : string) :
  s ≠ EmptyString →
  ∃ c, index s (len s - 1) = Ok c ∧ Ascii.eqb c "/" = strings.HasSuffix s "/".
Proof.
  destruct s as [|a s]; [done|]. intros _.
  destruct (get_last_slash a s) as (c & Hget & Hc). exists c. split; [|done].
  unfold index, len. cbn [String.length].
  replace (Z.of_nat (S (String.length s)) - 1) with (Z.of_nat (String.length s)) by lia.
  rewrite Nat2Z.id, Hget.
  rewrite (proj2 (Z.ltb_ge _ _)) by lia.
  rewrite (proj2 (Z.leb_gt _ _)) by lia.
  done.
Qed.

(** ** The static file mount *)

Section Mount.
Context `{!url.Parser} `{!http.Files}.

Lemma FileServer_rejects {R : Type} `{!chi.Router R} (path : string) root (r : R) :
  strings.ContainsAny path "{}*" = true →
  FileServer path root r
  = (Panicked (PanicValue "FileServer does not permit any URL parameters."), r).
Proof. intros Hc. unfold FileServer. by rewrite Hc. Qed.

(** What [FileServer] does with a mount path that passes its check and is
    not empty. *)
Lemma FileServer_accepts {R : Type} `{!chi.Router R} (path : string) root (r : R) :
  strings.ContainsAny path "{}*" = false →
  path ≠ EmptyString →
  FileServer path root r
  = ((if String.eqb path "/" || strings.HasSuffix path "/" then ret tt
      else chi.Get path (http.RedirectHandler (path +:+ "/") 301)) ;;
     chi.Get (normalizedPath path +:+ "*") (serveFiles root)) r.
Proof.
  intros Hc Hne. unfold FileServer, normalizedPath. rewrite Hc.
  destruct (String.eqb path "/") eqn:Eroot; [done|].
  destruct (index_last path Hne) as (c & Hidx & Hslash).
  cbn [negb orb]. unfold bind at 1 2. unfold eval. rewrite Hidx.
  unfold ret at 1. rewrite Hslash.
  destruct (strings.HasSuffix path "/"); cbn [negb]; [done|].
  unfold bind. destruct (chi.Get path _ r) as [[[]|p] r']; done.
Qed.
End Mount.

Lemma containsByte_app (c : ascii) (s t : string) :
  strings.containsByte c (s +:+ t)
  = strings.containsByte c s || strings.containsByte c t.
Proof.
  induction s as [|a s IH]; [done|].
  rewrite app_cons. cbn. rewrite IH. by rewrite orb_assoc.
Qed.

Lemma wildcardLast_no_star (s : string) :
  strings.containsByte "*" s = false → chi.wildcardLast s = true.
Proof.
  induction s as [|a s IH]; [done|].
  cbn [strings.containsByte]. intros [Ha Hs]%orb_false_iff.
  destruct s as [|b s]; [done|].
  change (negb (Ascii.eqb a "*") && chi.wildcardLast (String b s) = true).
  by rewrite Ha, IH.
Qed.

Lemma wildcardLast_star (s : string) :
  strings.containsByte "*" s = false → chi.wildcardLast (s +:+ "*") = true.
Proof.
  induction s as [|a s IH]; [done|].
  cbn [strings.containsByte]. intros [Ha Hs]%orb_false_iff.
  rewrite app_cons.
  destruct (s +:+ "*") as [|b t] eqn:E.
  { destruct s; discriminate E. }
  change (negb (Ascii.eqb a "*") && chi.wildcardLast (String b t) = true).
  by rewrite Ha, IH.
Qed.

Lemma firstByteIs_app (c : ascii) (s t : string) :
  http.firstByteIs c s = true → http.firstByteIs c (s +:+ t) = true.
Proof. by destruct s. Qed.

(** A pattern that begins with a slash and has no star before its end is
    added to the routes of a mux, after those it has. *)
Lemma Mux_Get_registers (pattern : string) (h : http.HandlerFunc) (mx : chi.Mux) :
  http.firstByteIs "/" pattern = true →
  chi.wildcardLast pattern = true →
  chi.Get pattern h mx
  = (Ok tt,
     {| chi.middlewares := chi.middlewares mx; chi.handlerBuilt := true;
        chi.routes := chi.routes mx ++
          [{| chi.routeMethod := "GET"; chi.routePattern := pattern;
              chi.routeHandler := h |}] |}).
Proof.
  intros Hslash Hstar. cbn. unfold chi.Mux_Get, chi.handle.
  by rewrite Hslash, Hstar.
Qed.

(** [http.StripPrefix] on a request whose path starts with the prefix and
    that carries no raw path: the handler sees the rest of the path. *)
Lemma StripPrefix_strips (prefix rest : string) (h : http.HandlerFunc) w r :
  url.Path (http.URL r) = prefix +:+ rest →
  url.RawPath (http.URL r) = EmptyString →
  http.StripPrefix prefix h w r
  = h w {| http.Method := http.Method r;
           http.URL := url.withPath (http.URL r) rest EmptyString;
           http.ctx := http.ctx r |}.
Proof.
  intros Hp Hrp. unfold http.StripPrefix.
  destruct prefix as [|a prefix].
  - rewrite app_empty in Hp. cbn.
    destruct r as [m [sch host p rp q] c]; cbn in *. by subst.
  - cbn [String.eqb]. rewrite Hp, Hrp.
    unfold strings.TrimPrefix. rewrite dropPrefix_app.
    cbn [default strings.dropPrefix]. unfold id.
    replace (len rest <? len (String a prefix +:+ rest)) with true; [done|].
    symmetry. apply Z.ltb_lt. unfold len. rewrite string_length_app. cbn. lia.
Qed.

Section MountValidation.
Context `{!url.Parser} `{!http.Files} `{!middleware.IDs}.

(** C2: a mount path in which one of the bytes of [{}*] occurs makes
    [FileServer] panic with its configuration error, on any router, during
    setup; it never returns normally. *)
Theorem C2_metacharacter_panics {R : Type} `{!chi.Router R}
    (path : string) (c : ascii) (root : http.FileSystem) (r : R) :
  strings.containsByte c path = true →
  c = "{"%char ∨ c = "}"%char ∨ c = "*"%char →
  (FileServer path root r).1
  = Panicked (PanicValue "FileServer does not permit any URL parameters.")
  ∧ (FileServer path root r).1 ≠ Ok tt.
Proof.
  intros Hin Hc.
  rewrite FileServer_rejects; [done|].
  apply ContainsAny_byte with c; [done|].
  by destruct Hc as [->|[->| ->]].
Qed.

(** C9: the check of the mount path comes before every registration: when
    [FileServer] panics on a path in which a byte of [{}*] occurs, the
    router is the one it was given; on a mux, the routes and all else are
    unchanged. *)
Theorem C9_panic_leaves_router_unchanged {R : Type} `{!chi.Router R}
    (path : string) (c : ascii) (root : http.FileSystem) :
  strings.containsByte c path = true →
  c = "{"%char ∨ c = "}"%char ∨ c = "*"%char →
  (∀ r : R, (FileServer path root r).2 = r)
  ∧ (∀ mx : chi.Mux,
       chi.routes (FileServer path root mx).2 = chi.routes mx
       ∧ chi.handlerBuilt (FileServer path root mx).2 = chi.handlerBuilt mx).
Proof.
  intros Hin Hc.
  assert (strings.ContainsAny path "{}*" = true) as Hany.
  { apply ContainsAny_byte with c; [done|]. by destruct Hc as [->|[->| ->]]. }
  split; [intros r|intros mx]; by rewrite FileServer_rejects.
Qed.

(** C8: the empty mount path passes the check for [{}*] and then fails
    in [path[len(path)-1]], index -1 of a string of length 0: a runtime
    panic, not the configuration error, with the router untouched.  So a
    path with which [FileServer] returns normally is not empty. *)
Theorem C8_empty_path_index_panic {R : Type} `{!chi.Router R}
    (root : http.FileSystem) :
  strings.ContainsAny EmptyString "{}*" = false
  ∧ index EmptyString (len EmptyString - 1) = Panicked (IndexOutOfRange (-1) 0)
  ∧ (∀ r : R, FileServer EmptyString root r = (Panicked (IndexOutOfRange (-1) 0), r))
  ∧ (∀ (path : string) (r r' : R),
       FileServer path root r = (Ok tt, r') → path ≠ EmptyString).
Proof.
  split; [done|]. split; [done|]. split; [done|].
  by intros path r r' Hok ->.
Qed.
End MountValidation.

Lemma app_assoc_string (s t u : string) : (s +:+ t) +:+ u = s +:+ (t +:+ u).
Proof.
  induction s as [|a s IH]; [done|]. rewrite !app_cons. by rewrite IH.
Qed.

Section RedirectFacts.
Context `{!url.Parser}.

(** On a writer nothing was called on, [http.Redirect] sends the final
    status it is given and the rewritten target as the [Location] header. *)
Lemma Redirect_response (url : string) (code : Z) (r : http.Request) :
  http.informational code = false →
  let resp := http.finishRequest (http.RedirectHandler url code [] r) in
  http.status resp = code
  ∧ http.sentHeader resp !! "Location"
    = Some [http.hexEscapeNonASCII (http.redirectTarget r url)].
Proof.
  intros Hi. unfold http.RedirectHandler, http.Redirect.
  replace (bool_decide (is_Some (http.headerOf [] "Content-Type"))) with false
    by done.
  cbn [negb andb].
  set (location := http.hexEscapeNonASCII (http.redirectTarget r url)).
  assert (∀ post,
    let resp := http.finishRequest
      ([http.CallHeaderSet "Location" location; http.CallWriteHeader code] ++ post) in
    http.status resp = code
    ∧ http.sentHeader resp !! "Location" = Some [location]) as Hplain.
  { intros post.
    assert (http.run [http.CallHeaderSet "Location" location; http.CallWriteHeader code]
            = {| http.handlerHeader := (<["Location" := [location]]> (∅ : http.Header));
                 http.wroteHeader := true; http.status := code;
                 http.sentHeader := (<["Location" := [location]]> (∅ : http.Header));
                 http.written := EmptyString; http.contentLength := None;
                 http.attempted := 0 |}) as Hrun.
    { unfold http.run. cbn [fold_left http.step].
      rewrite sendHeader_fresh; [done|done|done|]. cbn.
      by rewrite lookup_insert_ne. }
    destruct (finishRequest_after
                [http.CallHeaderSet "Location" location; http.CallWriteHeader code]
                post) as (Hs & Hh); [by rewrite Hrun|].
    cbn zeta. rewrite Hs, Hh, Hrun. cbn [http.status http.sentHeader].
    by rewrite lookup_insert_eq. }
  assert (∀ post,
    let resp := http.finishRequest
      ([http.CallHeaderSet "Location" location;
        http.CallHeaderSet "Content-Type" "text/html; charset=utf-8";
        http.CallWriteHeader code] ++ post) in
    http.status resp = code
    ∧ http.sentHeader resp !! "Location" = Some [location]) as Hhtml.
  { intros post.
    set (pre := [http.CallHeaderSet "Location" location;
                 http.CallHeaderSet "Content-Type" "text/html; charset=utf-8";
                 http.CallWriteHeader code]).
    set (h := <["Content-Type" := ["text/html; charset=utf-8"]]>
                ((<["Location" := [location]]> (∅ : http.Header)) : http.Header)).
    assert (http.run pre
            = {| http.handlerHeader := h;
                 http.wroteHeader := true; http.status := code;
                 http.sentHeader := h;
                 http.written := EmptyString; http.contentLength := None;
                 http.attempted := 0 |}) as Hrun.
    { unfold http.run, pre. cbn [fold_left http.step].
      rewrite sendHeader_fresh; [done|done|done|]. cbn.
      rewrite lookup_insert_ne by done. by rewrite lookup_insert_ne. }
    destruct (finishRequest_after pre post) as (Hs & Hh); [by rewrite Hrun|].
    cbn zeta. rewrite Hs, Hh, Hrun. cbn [http.status http.sentHeader]. unfold h.
    rewrite lookup_insert_ne by done. by rewrite lookup_insert_eq. }
  destruct (String.eqb (http.Method r) "GET") eqn:Eget; cbn [orb].
  - apply (Hhtml [_]).
  - destruct (String.eqb (http.Method r) "HEAD").
    + apply (Hhtml []).
    + apply (Hplain []).
Qed.

End RedirectFacts.

(** ** [replaceWildcards] runs long enough *)

Lemma dropPrefix_Some (p s rest : string) :
  strings.dropPrefix p s = Some rest → s = p +:+ rest.
Proof.
  revert s. induction p as [|a p IH]; intros s; cbn.
  - by intros [= ->].
  - destruct s as [|b s]; [done|].
    destruct (Ascii.eqb a b) eqn:E; [|done].
    apply Ascii.eqb_eq in E as ->. intros Hd. rewrite app_cons. f_equal. by apply IH.
Qed.

Lemma HasPrefix_length (s p : string) :
  strings.HasPrefix s p = true → (String.length p ≤ String.length s)%nat.
Proof.
  unfold strings.HasPrefix. intros [rest Hd]%bool_decide_eq_true_1.
  apply dropPrefix_Some in Hd as ->. rewrite string_length_app. lia.
Qed.

(** Replacing [/*/] by [/] never lengthens a string. *)
Lemma replaceFrom_length (s : string) (skip : nat) :
  (String.length (strings.replaceFrom skip s "/*/" "/")
   ≤ String.length s - skip)%nat.
Proof.
  revert skip. induction s as [|a s IH]; intros skip; [cbn; lia|].
  cbn [strings.replaceFrom]. destruct skip as [|k].
  - destruct (strings.HasPrefix (String a s) "/*/") eqn:E.
    + apply HasPrefix_length in E. cbn in E.
      rewrite string_length_app. specialize (IH (String.length "/*/" - 1)%nat).
      cbn in *. lia.
    + specialize (IH O). cbn. lia.
  - specialize (IH k). cbn. lia.
Qed.

(** A round that finds [/*/] shortens the string. *)
Lemma ReplaceAll_shorter (s : string) :
  strings.Contains s "/*/" = true →
  (String.length (strings.ReplaceAll s "/*/" "/") < String.length s)%nat.
Proof.
  unfold strings.ReplaceAll. induction s as [|a s IH]; [done|].
  change (strings.Contains (String a s) "/*/")
    with (strings.HasPrefix (String a s) "/*/" || strings.Contains s "/*/").
  cbn [strings.replaceFrom].
  destruct (strings.HasPrefix (String a s) "/*/") eqn:E; cbn [orb].
  - intros _. apply HasPrefix_length in E. cbn in E.
    pose proof (replaceFrom_length s (String.length "/*/" - 1)) as Hlen.
    rewrite string_length_app. cbn in *. lia.
  - intros Hc. specialize (IH Hc). cbn. lia.
Qed.

Lemma replaceWildcardsN_done (rounds : nat) (p : string) :
  (String.length p ≤ rounds)%nat →
  strings.Contains (chi.replaceWildcardsN rounds p) "/*/" = false.
Proof.
  revert p. induction rounds as [|n IH]; intros p Hlen.
  - destruct p; [done|cbn in Hlen; lia].
  - cbn [chi.replaceWildcardsN].
    destruct (strings.Contains p "/*/") eqn:E; [|done].
    apply IH. pose proof (ReplaceAll_shorter p E). lia.
Qed.

(** The result of [replaceWildcards] holds no [/*/]: the rounds allowed
    are enough for every pattern. *)
Lemma replaceWildcards_done (p : string) :
  strings.Contains (chi.replaceWildcards p) "/*/" = false.
Proof. by apply replaceWildcardsN_done. Qed.

(** ** Patterns and route paths *)

Lemma app_last_byte (s t : string) (a b : ascii) :
  s +:+ String a EmptyString = t +:+ String b EmptyString → a = b.
Proof.
  revert t. induction s as [|c s IH]; intros [|d t]; rewrite ?app_cons, ?app_empty.
  - by intros [= ->].
  - intros [= _ Heq]. destruct t; discriminate Heq.
  - intros [= _ Heq]. destruct s; discriminate Heq.
  - intros [= _ Heq]. by apply IH with t.
Qed.

(** A string that ends in a star has the suffix neither [/] nor [//]. *)
Lemma dropSuffix_star_slash (s suf : string) :
  strings.dropSuffix (suf +:+ "/") (s +:+ "*") = None.
Proof.
  destruct (strings.dropSuffix (suf +:+ "/") (s +:+ "*")) as [p|] eqn:E; [|done].
  apply dropSuffix_Some in E. rewrite <- app_assoc_string in E.
  by apply app_last_byte in E.
Qed.

Lemma dropSuffix_byte (c : ascii) (s p : string) :
  strings.dropSuffix (String c EmptyString) s = Some p →
  strings.containsByte c s = true.
Proof.
  intros ->%dropSuffix_Some. rewrite containsByte_app. cbn.
  by rewrite Ascii.eqb_refl, orb_true_r.
Qed.


(** No [/*/] occurs in a string whose only star is its last byte. *)
Lemma Contains_wildcard_inside (s : string) :
  strings.containsByte "*" s = false →
  strings.Contains (s +:+ "*") "/*/" = false.
Proof.
  induction s as [|a s IH]; [done|].
  cbn [strings.containsByte]. intros [Ha Hs]%orb_false_iff.
  rewrite app_cons.
  change (strings.HasPrefix (String a (s +:+ "*")) "/*/"
          || strings.Contains (s +:+ "*") "/*/" = false).
  rewrite (IH Hs), orb_false_r.
  unfold strings.HasPrefix. cbn [strings.dropPrefix].
  destruct (Ascii.eqb "/" a); [|done].
  destruct s as [|b s]; [done|].
  cbn [strings.containsByte] in Hs. apply orb_false_iff in Hs as [Hb _].
  rewrite app_cons. cbn [strings.dropPrefix].
  rewrite Ascii.eqb_sym, Hb. done.
Qed.




Section MountDispatch.
Context `{!url.Parser} `{!http.Files}.

(** The mux after [FileServer] ran on it with a mount path that passes the
    check and begins with a slash. *)
Lemma FileServer_mux (path : string) root (mx : chi.Mux) :
  strings.ContainsAny path "{}*" = false →
  http.firstByteIs "/" path = true →
  FileServer path root mx
  = (Ok tt,
     {| chi.middlewares := chi.middlewares mx; chi.handlerBuilt := true;
        chi.routes := chi.routes mx ++
          (if String.eqb path "/" || strings.HasSuffix path "/" then []
           else [ {| chi.routeMethod := "GET"; chi.routePattern := path;
                     chi.routeHandler := http.RedirectHandler (path +:+ "/") 301 |} ])
          ++ [ {| chi.routeMethod := "GET";
                  chi.routePattern := normalizedPath path +:+ "*";
                  chi.routeHandler := serveFiles root |} ] |}).
Proof.
  intros Hany Hslash.
  assert (path ≠ EmptyString) as Hne by (by intros ->).
  pose proof (ContainsAny_false_byte path "{}*" "*" Hany eq_refl) as Hstar.
  assert (http.firstByteIs "/" (normalizedPath path +:+ "*") = true) as Hfirst.
  { apply firstByteIs_app. unfold normalizedPath.
    destruct (_ || _); [done|by apply firstByteIs_app]. }
  assert (chi.wildcardLast (normalizedPath path +:+ "*") = true) as Hlast.
  { apply wildcardLast_star. unfold normalizedPath.
    destruct (_ || _); [done|]. by rewrite containsByte_app, Hstar. }
  rewrite FileServer_accepts by done.
  destruct (String.eqb path "/" || strings.HasSuffix path "/").
  - unfold bind, ret. by rewrite Mux_Get_registers.
  - unfold bind.
    rewrite Mux_Get_registers by (done || by apply wildcardLast_no_star).
    rewrite Mux_Get_registers by done.
    cbn [chi.routes chi.middlewares]. by rewrite <- app_assoc.
Qed.


End MountDispatch.

(** ** The redirect to the mount path with its slash *)

Lemma string_app_empty_r (s : string) : s +:+ EmptyString = s.
Proof. induction s as [|a s IH]; [done|]. by rewrite app_cons, IH. Qed.

Lemma splitByte_nonempty (sep : ascii) (s : string) : strings.splitByte sep s ≠ [].
Proof.
  induction s as [|a s IH]; [done|]. cbn [strings.splitByte].
  destruct (Ascii.eqb a sep); [done|]. by destruct (strings.splitByte sep s).
Qed.

Lemma splitByte_snoc_sep (sep : ascii) (s : string) :
  strings.splitByte sep (s +:+ String sep EmptyString)
  = strings.splitByte sep s ++ [EmptyString].
Proof.
  induction s as [|a s IH].
  - rewrite app_empty. cbn [strings.splitByte]. by rewrite Ascii.eqb_refl.
  - rewrite app_cons. cbn [strings.splitByte]. rewrite IH.
    destruct (Ascii.eqb a sep); [done|].
    destruct (strings.splitByte sep s) eqn:E; [|done].
    by apply splitByte_nonempty in E.
Qed.

(** [path.Clean] drops a trailing slash. *)
Lemma Clean_trailing_slash (p : string) :
  p ≠ EmptyString → path.Clean (p +:+ "/") = path.Clean p.
Proof.
  intros Hne. destruct p as [|c p]; [done|].
  rewrite (app_cons c p). unfold path.Clean.
  rewrite <- (app_cons c p). by rewrite splitByte_snoc_sep, fold_left_app.
Qed.

Lemma cutQuery_none (s : string) :
  strings.containsByte "?" s = false → http.cutQuery s = (s, EmptyString).
Proof.
  induction s as [|a s IH]; [done|].
  cbn [strings.containsByte http.cutQuery].
  intros [Ha Hs]%orb_false_iff. by rewrite Ha, IH.
Qed.

Lemma hexEscapeNonASCII_ASCII (s : string) :
  isASCII s = true → http.hexEscapeNonASCII s = s.
Proof.
  induction s as [|a s IH]; [done|].
  cbn [isASCII http.hexEscapeNonASCII]. intros [Ha Hs]%andb_true_iff.
  apply N.ltb_lt in Ha. rewrite (proj2 (N.leb_gt _ _)) by done.
  by rewrite IH.
Qed.

Lemma isASCII_app (s t : string) : isASCII (s +:+ t) = isASCII s && isASCII t.
Proof.
  induction s as [|a s IH]; [done|].
  rewrite app_cons. cbn [isASCII]. by rewrite IH, andb_assoc.
Qed.

Section RedirectToMount.
Context `{!url.Parser}.

(** The redirect target of a clean mount path: whatever [url.Parse] makes
    of it, the mount path followed by a slash stays as it is. *)
Lemma redirectTarget_mount (r : http.Request) (path : string) :
  http.firstByteIs "/" path = true →
  strings.HasSuffix path "/" = false →
  path.Clean path = path →
  strings.containsByte "?" path = false →
  http.redirectTarget r (path +:+ "/") = path +:+ "/".
Proof.
  intros Hslash Hsuf Hclean Hquery.
  assert (path ≠ EmptyString) as Hne by (by intros ->).
  unfold http.redirectTarget.
  destruct (url.Parse (path +:+ "/")) as [u|]; [|done].
  destruct (String.eqb (url.Scheme u) "" && String.eqb (url.Host u) ""); [|done].
  rewrite (firstByteIs_app "/" path "/" Hslash).
  replace (String.eqb (path +:+ "/") "") with false
    by (by destruct path).
  cbn [orb negb].
  rewrite cutQuery_none by (by rewrite containsByte_app, Hquery).
  rewrite Clean_trailing_slash, Hclean by done.
  rewrite Hsuf. unfold strings.HasSuffix at 1. rewrite dropSuffix_app.
  rewrite bool_decide_eq_true_2 by done. cbn [andb negb].
  apply string_app_empty_r.
Qed.

Lemma RedirectHandler_mount (r : http.Request) (path : string) :
  http.firstByteIs "/" path = true →
  strings.HasSuffix path "/" = false →
  path.Clean path = path →
  strings.containsByte "?" path = false →
  isASCII path = true →
  let resp := http.finishRequest (http.RedirectHandler (path +:+ "/") 301 [] r) in
  http.status resp = 301
  ∧ http.sentHeader resp !! "Location" = Some [path +:+ "/"].
Proof.
  intros Hslash Hsuf Hclean Hquery Hascii.
  pose proof (Redirect_response (path +:+ "/") 301 r eq_refl) as [Hs Hl].
  split; [exact Hs|]. cbn zeta in Hl. rewrite Hl.
  rewrite redirectTarget_mount by done.
  by rewrite hexEscapeNonASCII_ASCII by (by rewrite isASCII_app, Hascii).
Qed.
End RedirectToMount.

(** A mux without middlewares, on a request that comes in from the server:
    the routes decide. *)
Lemma plain_mux_serves (mx : chi.Mux) (method target : string) w (req : http.Request) :
  chi.middlewares mx = [] →
  chi.handlerBuilt mx = true →
  incoming method target req →
  target ≠ EmptyString →
  method ∈ chi.methodMap →
  chi.ServeHTTP mx w req
  = match chi.FindRoute (chi.routes mx) method target with
    | Some rt =>
        chi.routeHandler rt w
          (http.WithContext req
             {| http.RouteCtx :=
                  Some {| RoutePath := EmptyString;
                          RoutePatterns := [chi.routePattern rt] |};
                http.RequestID := http.RequestID (http.ctx req) |})
    | None =>
        if chi.methodNotAllowed (chi.routes mx) target
        then chi.MethodNotAllowed (chi.methodsAllowed (chi.routes mx) target) w req
        else http.NotFound w req
    end.
Proof.
  intros Hms Hbuilt (Hm & Hp & Hrp & Hc) Hne Hmethod.
  unfold chi.ServeHTTP. rewrite Hbuilt, Hms. cbn [negb].
  unfold chi.RouteContext at 1. rewrite Hc. unfold chi.chain. cbn [foldr].
  unfold chi.routeHTTP.
  cbn [http.WithContext http.ctx http.URL http.Method chi.RouteContext
       http.RouteCtx default].
  rewrite Hrp, Hp, Hm. unfold id.
  cbn [chi.freshContext RoutePath RoutePatterns String.eqb negb app http.RequestID].
  replace (String.eqb target "") with false
    by (symmetry; by apply String.eqb_neq).
  rewrite bool_decide_eq_true_2 by done. cbn [negb].
  by destruct (chi.FindRoute (chi.routes mx) method target).
Qed.


Section WildcardHandler.
Context `{!http.Files}.

(** The wildcard handler answers 404 itself when the prefix it computed is
    not empty and the path, or the raw path, does not start with it. *)
Lemma serveFiles_mismatch (root : http.FileSystem) (w : http.ResponseWriter)
    (r : http.Request) :
  let prefix :=
    strings.TrimSuffix (chi.RoutePattern (chi.RouteContext (http.ctx r))) "/*" in
  prefix ≠ EmptyString →
  strings.HasPrefix (url.Path (http.URL r)) prefix = false
  ∨ (url.RawPath (http.URL r) ≠ EmptyString
     ∧ strings.HasPrefix (url.RawPath (http.URL r)) prefix = false) →
  serveFiles root w r = http.NotFound w r.
Proof.
  intros prefix Hne Hmiss. unfold serveFiles. fold prefix.
  unfold http.StripPrefix.
  replace (String.eqb prefix "") with false
    by (symmetry; by apply String.eqb_neq).
  assert (∀ s, strings.HasPrefix s prefix = false → strings.TrimPrefix s prefix = s)
    as Htrim.
  { intros s Hs. unfold strings.HasPrefix, strings.TrimPrefix in *.
    destruct (strings.dropPrefix prefix s); [|done].
    by rewrite bool_decide_eq_true_2 in Hs. }
  destruct Hmiss as [Hpath|[Hraw Hrawpath]].
  - rewrite (Htrim _ Hpath). by rewrite Z.ltb_irrefl.
  - rewrite (Htrim _ Hrawpath). rewrite Z.ltb_irrefl, orb_false_r.
    replace (String.eqb (url.RawPath (http.URL r)) "") with false
      by (symmetry; by apply String.eqb_neq).
    by rewrite andb_false_r.
Qed.
End WildcardHandler.

Section MountRoutes.
Context `{!url.Parser} `{!http.Files} `{!middleware.IDs}.

(** The routes of a mount that needed the slash, and where a request for
    the mount path itself goes. *)
Lemma FindRoute_mount_path (path : string) root :
  strings.ContainsAny path "{}*" = false →
  http.firstByteIs "/" path = true →
  strings.HasSuffix path "/" = false →
  chi.FindRoute (chi.routes (FileServer path root chi.NewRouter).2) "GET" path
  = Some {| chi.routeMethod := "GET"; chi.routePattern := path;
            chi.routeHandler := http.RedirectHandler (path +:+ "/") 301 |}.
Proof.
  intros Hany Hslash Hsuf. rewrite FileServer_mux by done.
  pose proof (ContainsAny_false_byte path "{}*" "*" Hany eq_refl) as Hstar.
  assert (String.eqb path "/" = false) as Hroot.
  { apply String.eqb_neq. by intros ->. }
  unfold normalizedPath. rewrite Hroot, Hsuf.
  cbn [snd chi.routes chi.NewRouter app orb]. unfold chi.FindRoute.
  cbn [fold_left chi.routeMethod chi.routePattern String.eqb].
  rewrite !Ascii.eqb_refl. cbn [andb].
  assert (chi.patternMatches path path = true) as ->.
  { unfold chi.patternMatches.
    destruct (strings.dropSuffix "*" path) as [p|] eqn:E.
    { apply dropSuffix_byte in E. congruence. }
    apply String.eqb_refl. }
  assert (chi.patternMatches ((path +:+ "/") +:+ "*") path = false) as ->; [|done].
  unfold chi.patternMatches. rewrite dropSuffix_app. unfold strings.HasPrefix.
  destruct (strings.dropPrefix (path +:+ "/") path) as [rest|] eqn:E;
    [|by rewrite bool_decide_eq_false_2 by (by intros [? ?])].
  apply dropPrefix_Some in E. apply (f_equal String.length) in E.
  rewrite !string_length_app in E. cbn in E. lia.
Qed.

(** C3, amended: for a non-empty mount path without [{], [}] and [*] that
    is not [/] and does not end in a slash, [FileServer] first calls
    [r.Get] with the mount path itself and the handler
    [http.RedirectHandler(path+"/", 301)], then [r.Get] with the path
    followed by [/*]; on a mux, which wants a leading slash in every
    pattern, the two routes are registered in this order after the routes
    it had.  When the mount path is clean (as [path.Clean] leaves it) and
    holds no question mark and no byte from 0x80 up, the redirect handler
    answers every request with status 301 and the mount path followed by a
    slash as [Location], and so does a mux that holds the mount for every
    request [GET] of the mount path; every request [GET /files] is answered
    with status 301 and [Location: /files/]. *)
Theorem C3_redirect_route_registered_first :
  (∀ (R : Type) `{!chi.Router R} (path : string) root (r : R),
      strings.ContainsAny path "{}*" = false →
      path ≠ EmptyString →
      path ≠ "/" →
      strings.HasSuffix path "/" = false →
      FileServer path root r
      = (chi.Get path (http.RedirectHandler (path +:+ "/") 301) ;;
         chi.Get (path +:+ "/*") (serveFiles root)) r)
  ∧ (∀ (path : string) root (mx : chi.Mux),
      strings.ContainsAny path "{}*" = false →
      http.firstByteIs "/" path = true →
      path ≠ "/" →
      strings.HasSuffix path "/" = false →
      FileServer path root mx
      = (Ok tt,
         {| chi.middlewares := chi.middlewares mx; chi.handlerBuilt := true;
            chi.routes := chi.routes mx ++
              [ {| chi.routeMethod := "GET"; chi.routePattern := path;
                   chi.routeHandler := http.RedirectHandler (path +:+ "/") 301 |};
                {| chi.routeMethod := "GET"; chi.routePattern := path +:+ "/*";
                   chi.routeHandler := serveFiles root |} ] |}))
  ∧ (∀ (path : string) (r : http.Request),
      http.firstByteIs "/" path = true →
      strings.HasSuffix path "/" = false →
      path.Clean path = path →
      strings.containsByte "?" path = false →
      isASCII path = true →
      let resp := http.finishRequest (http.RedirectHandler (path +:+ "/") 301 [] r) in
      http.status resp = 301
      ∧ http.sentHeader resp !! "Location" = Some [path +:+ "/"])
  ∧ (∀ (path : string) root (req : http.Request),
      strings.ContainsAny path "{}*" = false →
      http.firstByteIs "/" path = true →
      strings.HasSuffix path "/" = false →
      path.Clean path = path →
      strings.containsByte "?" path = false →
      isASCII path = true →
      incoming "GET" path req →
      let resp := serve (FileServer path root chi.NewRouter).2 req in
      http.status resp = 301
      ∧ http.sentHeader resp !! "Location" = Some [path +:+ "/"])
  ∧ (∀ (workDir : string) (req : http.Request),
      incoming "GET" "/files" req →
      http.status (serve (router workDir) req) = 301
      ∧ http.sentHeader (serve (router workDir) req) !! "Location"
        = Some ["/files/"]).
Proof.
  assert (∀ (R : Type) `{!chi.Router R} (path : string) root (r : R),
      strings.ContainsAny path "{}*" = false →
      path ≠ EmptyString →
      path ≠ "/" →
      strings.HasSuffix path "/" = false →
      FileServer path root r
      = (chi.Get path (http.RedirectHandler (path +:+ "/") 301) ;;
         chi.Get (path +:+ "/*") (serveFiles root)) r) as Hgen.
  { intros R HR path root r Hany Hne Hroot Hsuf.
    rewrite FileServer_accepts by done. unfold normalizedPath.
    apply String.eqb_neq in Hroot. rewrite Hroot, Hsuf. cbn [orb].
    by rewrite app_assoc_string. }
  split; [exact Hgen|]. split; [|split; [|split]].
  - intros path root mx Hany Hslash Hroot Hsuf.
    rewrite FileServer_mux by done. unfold normalizedPath.
    apply String.eqb_neq in Hroot. rewrite Hroot, Hsuf. cbn [orb app].
    by rewrite app_assoc_string.
  - intros path r Hslash Hsuf Hclean Hquery Hascii.
    by apply RedirectHandler_mount.
  - intros path root req Hany Hslash Hsuf Hclean Hquery Hascii Hin.
    assert (path ≠ EmptyString) as Hne by (by intros ->).
    cbn zeta. rewrite (serve_GET _ path req Hin Hslash).
    rewrite (plain_mux_serves _ "GET" path [] req);
      [|by rewrite FileServer_mux|by rewrite FileServer_mux|done|done
       |unfold chi.methodMap; set_solver].
    rewrite FindRoute_mount_path by done.
    cbn [chi.routeHandler chi.routePattern].
    by apply RedirectHandler_mount.
  - intros workDir req Hin.
    rewrite (serve_GET _ "/files" req Hin eq_refl).
    erewrite router_dispatch; [|exact Hin|done|unfold router; by rewrite main_router].
    cbn [chi.routeHandler chi.routePattern]. rewrite finishRequest_forward.
    by apply (RedirectHandler_mount (routed "/files" req) "/files").
Qed.

End MountRoutes.

(** ** One response, one writer? *)

(** C6, amended: the adapter calls the writer exactly when the wrapped
    function returns an error, and then after whatever the wrapped function
    wrote; when the wrapped function returns [nil] the response is the one
    it wrote.  Hence exactly one of the two writes the response whenever the
    wrapped function writes if and only if it returns [nil]. *)
Theorem C6_adapter_writes_iff_error (h : Handler) (w : http.ResponseWriter) (r : http.Request) :
  (adapterWrote h w r = true ↔ (h w r).2 ≠ None)
  ∧ ((h w r).2 = None → ServeHTTP h w r = (h w r).1)
  ∧ (∀ err, (h w r).2 = Some err →
       ServeHTTP h w r = (h w r).1 ++ [http.CallWriteHeader 503; http.CallWrite "bad"])
  ∧ ((wrappedWrote h w r = true ↔ (h w r).2 = None) →
       xorb (wrappedWrote h w r) (adapterWrote h w r) = true).
Proof.
  unfold adapterWrote, wrappedWrote.
  destruct (h w r) as [w' [err|]] eqn:Hh; cbn [fst snd].
  - rewrite (ServeHTTP_error h w r w' err Hh).
    assert (w' ++ [http.CallWriteHeader 503; http.CallWrite "bad"] ≠ w') as Hneq.
    { intros Heq. apply (f_equal length) in Heq. rewrite length_app in Heq.
      cbn in Heq. lia. }
    rewrite (bool_decide_eq_true_2 _ Hneq).
    split; [done|]. split; [done|]. split; [done|].
    intros [Hw _]. destruct (bool_decide (w' ≠ w)); [by specialize (Hw eq_refl)|done].
  - rewrite (ServeHTTP_nil h w r w' Hh).
    rewrite (bool_decide_eq_false_2 (w' ≠ w')) by (by intros Hneq).
    split; [done|]. split; [done|]. split; [done|].
    intros [_ Hw]. rewrite (Hw eq_refl). done.
Qed.

(** C6 as stated fails: a wrapped function that writes and then returns an
    error has its own output in the response and the adapter's after it, and
    the late status 503 is ignored; a wrapped function that returns [nil]
    without writing leaves the response to neither. *)
Lemma C6_counterexample :
  let req := Sample.request "GET" "/picture" EmptyString in
  wrappedWrote Sample.writeThenFail [] req = true
  ∧ adapterWrote Sample.writeThenFail [] req = true
  ∧ ServeHTTP Sample.writeThenFail [] req
    = [http.CallWrite "partial"; http.CallWriteHeader 503; http.CallWrite "bad"]
  ∧ http.status (http.finishRequest (ServeHTTP Sample.writeThenFail [] req)) = 200
  ∧ http.written (http.finishRequest (ServeHTTP Sample.writeThenFail [] req))
    = "partialbad"
  ∧ wrappedWrote Sample.silent [] req = false
  ∧ adapterWrote Sample.silent [] req = false.
Proof. by vm_compute. Qed.

Lemma C6_witness :
  let req := Sample.request "GET" "/picture" "err=boom" in
  xorb (wrappedWrote customHandler [] req) (adapterWrote customHandler [] req) = true.
Proof.
  intros req.
  apply (proj2 (proj2 (proj2 (C6_adapter_writes_iff_error customHandler [] req)))).
  split; intros Hx; vm_compute in Hx; discriminate Hx.
Defined.

(** ** Closed instances *)

Lemma C7_witness :
  let req := Sample.request "GET" "/" EmptyString in
  incoming "GET" "/" req
  ∧ http.status (serve (@router Sample.parser Sample.files Sample.ids "/srv") req) = 200
  ∧ http.written (serve (@router Sample.parser Sample.files Sample.ids "/srv") req)
    = "hello world".
Proof.
  intros req.
  assert (incoming "GET" "/" req) as Hin by done.
  split; [exact Hin|].
  exact (proj2 (@C7_get_root_says_hello Sample.parser Sample.files Sample.ids
                  "/srv" req Hin)).
Defined.

Lemma C5_witness :
  let absent := Sample.request "GET" "/picture" EmptyString in
  let empty := Sample.request "GET" "/picture" "err=" in
  http.status (serve (@router Sample.parser Sample.files Sample.ids "/srv") empty) = 200
  ∧ http.written (serve (@router Sample.parser Sample.files Sample.ids "/srv") empty)
    = "A whole bunch of messages and such"
  ∧ chi.ServeHTTP (@router Sample.parser Sample.files Sample.ids "/srv") [] absent
    = chi.ServeHTTP (@router Sample.parser Sample.files Sample.ids "/srv") [] empty.
Proof.
  intros absent empty.
  assert (incoming "GET" "/picture" absent) as Ha by done.
  assert (incoming "GET" "/picture" empty) as He by done.
  destruct (@C5_picture_without_err Sample.parser Sample.files Sample.ids
              "/srv" empty He (or_intror (ex_intro _ [] eq_refl))) as (Hs & Hb & Hsame).
  split; [exact Hs|]. split; [exact Hb|].
  apply (Hsame absent Ha). left. reflexivity.
Defined.



Lemma C10_witness :
  let req := Sample.request "GET" "/picture" "err=boom" in
  customHandler [] req = ([], Some (errors.New "boom")).
Proof.
  intros req.
  refine (proj1 (proj1 (C10_customHandler_fails_before_writing [] req) _)).
  by vm_compute.
Defined.

Lemma C2_witness :
  (@FileServer Sample.parser Sample.files chi.Mux _ "/a*" "data" chi.NewRouter).1
  = Panicked (PanicValue "FileServer does not permit any URL parameters.").
Proof.
  refine (proj1 (@C2_metacharacter_panics Sample.parser Sample.files chi.Mux _
                   "/a*" "*"%char "data" chi.NewRouter _ _)).
  - reflexivity.
  - right. right. reflexivity.
Defined.

Lemma C9_witness :
  chi.routes (@FileServer Sample.parser Sample.files chi.Mux _ "/{id}" "data"
                chi.NewRouter).2 = [].
Proof.
  refine (proj1 (proj2 (@C9_panic_leaves_router_unchanged Sample.parser Sample.files
                          chi.Mux _ "/{id}" "{"%char "data" _ _) chi.NewRouter)).
  - reflexivity.
  - left. reflexivity.
Defined.

Lemma C8_witness : "/files" ≠ EmptyString.
Proof.
  refine (proj2 (proj2 (proj2 (@C8_empty_path_index_panic Sample.parser Sample.files
                                 chi.Mux _ "data")))
            "/files" chi.NewRouter
            (@FileServer Sample.parser Sample.files chi.Mux _ "/files" "data"
               chi.NewRouter).2 _).
  reflexivity.
Defined.

(** C3 as stated fails: the mount path [/a*] is not [/] and does not end in
    a slash, yet [FileServer] panics on it before any call of [r.Get] and the
    mux has no route; so it is with the empty path, which fails in the index
    expression, and with a path without a leading slash, which chi refuses
    as a pattern.  And where the routes are registered, the redirect need
    not go to the mount path followed by a slash: [http.Redirect] cleans
    its target, so that the mount path [/a/../b] redirects to [/b/], and
    it escapes the bytes from 0x80 up, so that a mount path with the two
    bytes of an e with acute accent redirects to [/%c3%a9/]. *)
Lemma C3_counterexample :
  let mount path :=
    @FileServer Sample.parser Sample.files chi.Mux _ path "data" chi.NewRouter in
  let location path :=
    http.sentHeader
      (serve (mount path).2 (Sample.request "GET" path EmptyString))
      !! "Location" in
  let accented := String "/" (String "195" (String "169" EmptyString)) in
  ("/a*" ≠ "/" ∧ strings.HasSuffix "/a*" "/" = false
   ∧ mount "/a*"
     = (Panicked (PanicValue "FileServer does not permit any URL parameters."),
        chi.NewRouter)
   ∧ chi.routes (mount "/a*").2 = [])
  ∧ (EmptyString ≠ "/" ∧ strings.HasSuffix EmptyString "/" = false
     ∧ mount EmptyString = (Panicked (IndexOutOfRange (-1) 0), chi.NewRouter))
  ∧ ("files" ≠ "/" ∧ strings.HasSuffix "files" "/" = false
     ∧ (mount "files").1
       = Panicked (PanicValue "chi: routing pattern must begin with '/' in 'files'")
     ∧ chi.routes (mount "files").2 = [])
  ∧ ("/a/../b" ≠ "/" ∧ strings.HasSuffix "/a/../b" "/" = false
     ∧ (mount "/a/../b").1 = Ok tt
     ∧ location "/a/../b" = Some ["/b/"])
  ∧ (accented ≠ "/" ∧ strings.HasSuffix accented "/" = false
     ∧ (mount accented).1 = Ok tt
     ∧ location accented = Some ["/%c3%a9/"]).
Proof. by vm_compute. Qed.

Lemma C3_witness :
  map chi.routePattern
    (chi.routes (@FileServer Sample.parser Sample.files chi.Mux _ "/files" "data"
                   chi.NewRouter).2)
  = ["/files"; "/files/*"]
  ∧ http.sentHeader
      (serve
         (@FileServer Sample.parser Sample.files chi.Mux _ "/static/img" "data"
            chi.NewRouter).2
         (Sample.request "GET" "/static/img" EmptyString)) !! "Location"
    = Some ["/static/img/"]
  ∧ http.sentHeader
      (serve (@router Sample.parser Sample.files Sample.ids "/srv")
         (Sample.request "GET" "/files" EmptyString)) !! "Location"
    = Some ["/files/"].
Proof.
  destruct (@C3_redirect_route_registered_first Sample.parser Sample.files Sample.ids)
    as (_ & Hmux & _ & Hmount & Hfiles).
  split; [|split].
  - rewrite (Hmux "/files" "data" chi.NewRouter eq_refl eq_refl); [done|done|done].
  - apply (Hmount "/static/img" "data" (Sample.request "GET" "/static/img" EmptyString));
      reflexivity || done.
  - apply Hfiles. done.
Defined.



(** * Further properties of main.go *)

(** ** The adapter after a wrapped function that already wrote *)



(** ** Routing in general *)

(** Routes that do not apply to a request leave the choice as it is. *)
Lemma FindRoute_skip (rts : list chi.Route) (method routePath : string)
    (best : option chi.Route) :
  Forall (λ rt, String.eqb (chi.routeMethod rt) method
                && chi.patternMatches (chi.routePattern rt) routePath = false) rts →
  fold_left
    (λ best rt,
       if String.eqb (chi.routeMethod rt) method
          && chi.patternMatches (chi.routePattern rt) routePath
       then match best with
            | Some b => if chi.prefers rt b then Some rt else Some b
            | None => Some rt
            end
       else best) rts best
  = best.
Proof.
  intros Hall. revert best. induction Hall as [|rt rts Hrt _ IH]; intros best; [done|].
  cbn [fold_left]. rewrite Hrt. apply IH.
Qed.

Lemma FindRoute_none (rts : list chi.Route) (method routePath : string) :
  Forall (λ rt, String.eqb (chi.routeMethod rt) method
                && chi.patternMatches (chi.routePattern rt) routePath = false) rts →
  chi.FindRoute rts method routePath = None.
Proof. apply FindRoute_skip. Qed.

Lemma FindRoute_app_skip (old new : list chi.Route) (method routePath : string) :
  Forall (λ rt, String.eqb (chi.routeMethod rt) method
                && chi.patternMatches (chi.routePattern rt) routePath = false) new →
  chi.FindRoute (old ++ new) method routePath = chi.FindRoute old method routePath.
Proof.
  intros Hall. unfold chi.FindRoute. rewrite fold_left_app. by apply FindRoute_skip.
Qed.

(** The calls of chi's answer 405 on a fresh writer: the [Allow] headers
    leave the header unsent, the body empty and no [Content-Length]. *)
Lemma run_Allow (allowed : list string) (w : http.ResponseWriter) :
  http.wroteHeader (http.run w) = false →
  http.handlerHeader (http.run w) !! "Content-Length" = None →
  let st :=
    http.run (fold_left (fun w method => http.HeaderAdd "Allow" method w) allowed w) in
  http.wroteHeader st = false
  ∧ http.handlerHeader st !! "Content-Length" = None.
Proof.
  revert w. induction allowed as [|method allowed IH]; intros w Hw Hcl; [done|].
  cbn [fold_left]. apply IH.
  - unfold http.HeaderAdd. by rewrite run_snoc.
  - unfold http.HeaderAdd. rewrite run_snoc. cbn [http.step http.withHeader
      http.handlerHeader]. by rewrite lookup_insert_ne.
Qed.

Lemma MethodNotAllowed_response (allowed : list string) (r : http.Request) :
  let resp := http.finishRequest (chi.MethodNotAllowed allowed [] r) in
  http.status resp = 405 ∧ http.written resp = EmptyString.
Proof.
  unfold chi.MethodNotAllowed.
  destruct (run_Allow allowed [] eq_refl eq_refl) as [Hw Hcl].
  pose proof (run_unsent_empty _ Hw) as Hempty.
  cbn zeta in *. unfold http.Write, http.WriteHeader, http.finishRequest.
  rewrite !run_snoc.
  remember (http.run
              (fold_left (fun w method => http.HeaderAdd "Allow" method w) allowed []))
    as st eqn:Est.
  clear Est. unfold http.step.
  rewrite (sendHeader_fresh 405 st Hw eq_refl Hcl).
  change (len "" =? 0) with true. cbn iota.
  by rewrite !(sendHeader_wrote 200) by done.
Qed.

Section RouterTable.
Context `{!url.Parser} `{!http.Files} `{!middleware.IDs}.

(** What the client gets from the router of [main] for a request line with
    a path: the routes decide, and the wrapper of the logger changes
    nothing of what the server makes of the handler's calls. *)
Lemma serve_main (workDir method target : string) (req : http.Request) :
  incoming method target req →
  http.firstByteIs "/" target = true →
  serve (router workDir) req
  = http.respond req
      (if negb (bool_decide (method ∈ chi.methodMap))
       then chi.MethodNotAllowed [] [] req
       else match chi.FindRoute (chi.routes (router workDir)) method target with
            | Some rt => chi.routeHandler rt [] (routed (chi.routePattern rt) req)
            | None =>
                if chi.methodNotAllowed (chi.routes (router workDir)) target
                then chi.MethodNotAllowed
                       (chi.methodsAllowed (chi.routes (router workDir)) target) [] req
                else http.NotFound [] req
            end).
Proof.
  intros Hin Hslash.
  assert (target ≠ EmptyString) as Hne by (by intros ->).
  rewrite serve_router by (by destruct Hin as (_ & -> & _)).
  rewrite (router_serves workDir method target req Hin Hne).
  apply respond_forward.
Qed.
End RouterTable.

Section RouterMethodsAndPaths.
Context `{!url.Parser} `{!http.Files} `{!middleware.IDs}.

(** X2: [main] registers GET routes only.  A request for one of its paths
    ([/], [/picture], [/files], or anything under [/files/]) with any other
    method, known to chi or not, is answered with status 405 and an empty
    body: no handler of the program runs. *)
Theorem X2_other_methods_get_405 (workDir method target : string) (req : http.Request) :
  incoming method target req →
  method ≠ "GET" →
  target = "/" ∨ target = "/picture" ∨ target = "/files"
    ∨ strings.HasPrefix target "/files/" = true →
  http.status (serve (router workDir) req) = 405
  ∧ http.written (serve (router workDir) req) = EmptyString.
Proof.
  intros Hin Hmethod Htarget.
  assert (http.firstByteIs "/" target = true) as Hslash.
  { destruct Htarget as [->|[->|[->|Hunder]]]; [done|done|done|].
    destruct target as [|c target]; [done|]. unfold strings.HasPrefix in Hunder.
    cbn [strings.dropPrefix] in Hunder. destruct (Ascii.eqb "/" c) eqn:E.
    - apply Ascii.eqb_eq in E as <-. done.
    - by rewrite bool_decide_eq_false_2 in Hunder by (by intros [? ?]). }
  assert (∀ allowed : list string,
            let resp := http.respond req (chi.MethodNotAllowed allowed [] req) in
            http.status resp = 405 ∧ http.written resp = EmptyString) as Hanswer.
  { intros allowed. destruct (MethodNotAllowed_response allowed req) as [Hs Hb].
    cbn zeta in *. unfold http.respond.
    by destruct (String.eqb (http.Method req) "HEAD"). }
  rewrite (serve_main workDir method target req Hin Hslash).
  destruct (negb (bool_decide (method ∈ chi.methodMap))); [apply Hanswer|].
  assert (String.eqb "GET" method = false) as Hget
    by (apply String.eqb_neq; congruence).
  unfold router. rewrite main_router. cbn [snd chi.routes].
  rewrite FindRoute_none.
  2:{ repeat constructor; cbn [chi.routeMethod]; by rewrite Hget. }
  replace (chi.methodNotAllowed _ target) with true; [apply Hanswer|].
  symmetry. unfold chi.methodNotAllowed.
  cbn [existsb chi.routePattern].
  destruct Htarget as [->|[->|[->|Hunder]]]; [done|done|done|].
  change (chi.patternMatches "/files/*" target)
    with (strings.HasPrefix target "/files/").
  rewrite Hunder. by rewrite !orb_true_r.
Qed.

(** X3: a request with a method chi knows for a path that is none of [/],
    [/picture], [/files] and does not start with [/files/] is answered
    with status 404 and the body of [http.NotFound], which a HEAD request
    does not get; so are [/picture/] and [/Picture]: routes match byte for
    byte, and only [/files] has a second form. *)
Theorem X3_unknown_paths_get_404 (workDir method target : string) (req : http.Request) :
  incoming method target req →
  method ∈ chi.methodMap →
  http.firstByteIs "/" target = true →
  target ≠ "/" → target ≠ "/picture" → target ≠ "/files" →
  strings.HasPrefix target "/files/" = false →
  http.status (serve (router workDir) req) = 404
  ∧ http.written (serve (router workDir) req)
    = if String.eqb method "HEAD" then EmptyString
      else "404 page not found" +:+ String "010" EmptyString.
Proof.
  intros Hin Hmethod Hslash Hroot Hpicture Hfiles Hunder.
  rewrite (serve_main workDir method target req Hin Hslash).
  rewrite bool_decide_eq_true_2 by done. cbn [negb].
  unfold router. rewrite main_router. cbn [snd chi.routes].
  assert (chi.patternMatches "/" target = false) as Hp1
    by (change (String.eqb "/" target = false); by apply String.eqb_neq).
  assert (chi.patternMatches "/picture" target = false) as Hp2
    by (change (String.eqb "/picture" target = false); by apply String.eqb_neq).
  assert (chi.patternMatches "/files" target = false) as Hp3
    by (change (String.eqb "/files" target = false); by apply String.eqb_neq).
  assert (chi.patternMatches "/files/*" target = false) as Hp4 by exact Hunder.
  rewrite FindRoute_none.
  2:{ repeat constructor; cbn [chi.routePattern];
      rewrite ?Hp1, ?Hp2, ?Hp3, ?Hp4; by rewrite andb_false_r. }
  unfold chi.methodNotAllowed. cbn [existsb chi.routePattern].
  rewrite Hp1, Hp2, Hp3, Hp4. cbn [orb].
  unfold http.respond. destruct Hin as (-> & _).
  destruct (String.eqb method "HEAD"); by vm_compute.
Qed.

End RouterMethodsAndPaths.

Lemma X2_witness :
  http.status
    (serve (@router Sample.parser Sample.files Sample.ids "/srv")
       (Sample.request "POST" "/picture" "err=boom")) = 405
  ∧ http.status
      (serve (@router Sample.parser Sample.files Sample.ids "/srv")
         (Sample.request "HEAD" "/files/a.txt" EmptyString)) = 405.
Proof.
  split.
  - refine (proj1 (@X2_other_methods_get_405 Sample.parser Sample.files
                     Sample.ids "/srv" "POST" "/picture" _ _ _ _)).
    + done.
    + done.
    + right. left. reflexivity.
  - refine (proj1 (@X2_other_methods_get_405 Sample.parser Sample.files
                     Sample.ids "/srv" "HEAD" "/files/a.txt" _ _ _ _)).
    + done.
    + done.
    + right. right. right. reflexivity.
Defined.

Lemma X3_witness :
  http.status
    (serve (@router Sample.parser Sample.files Sample.ids "/srv")
       (Sample.request "GET" "/picture/" EmptyString)) = 404.
Proof.
  refine (proj1 (@X3_unknown_paths_get_404 Sample.parser Sample.files
                   Sample.ids "/srv" "GET" "/picture/" _ _ _ _ _ _ _ _)).
  - done.
  - unfold chi.methodMap. set_solver.
  - done.
  - done.
  - done.
  - done.
  - reflexivity.
Defined.

(** ** When [FileServer] succeeds, and what a failure leaves behind *)

Lemma Mux_Get_refuses (pattern : string) (h : http.HandlerFunc) (mx : chi.Mux) :
  http.firstByteIs "/" pattern = false →
  chi.Get pattern h mx
  = (Panicked (PanicValue ("chi: routing pattern must begin with '/' in '"
                             +:+ pattern +:+ "'")), mx).
Proof. intros Hslash. cbn. unfold chi.Mux_Get, chi.handle. by rewrite Hslash. Qed.

Lemma firstByteIs_app_false (c : ascii) (s t : string) :
  s ≠ EmptyString → http.firstByteIs c s = false →
  http.firstByteIs c (s +:+ t) = false.
Proof. by destruct s. Qed.

Lemma ContainsAny_app (s t chars : string) :
  strings.ContainsAny (s +:+ t) chars
  = strings.ContainsAny s chars || strings.ContainsAny t chars.
Proof.
  induction s as [|a s IH]; [done|].
  rewrite app_cons. cbn. rewrite IH. by rewrite orb_assoc.
Qed.

Section MountOutcome.
Context `{!url.Parser} `{!http.Files}.

(** A mount path that passes the check but does not begin with a slash
    makes chi refuse the first pattern (or, when the path is empty, fails in
    the index expression); the mux is as before. *)
Lemma FileServer_mux_panics (path : string) root (mx : chi.Mux) :
  strings.ContainsAny path "{}*" = false →
  http.firstByteIs "/" path = false →
  ∃ p, FileServer path root mx = (Panicked p, mx).
Proof.
  intros Hany Hslash.
  destruct (decide (path = EmptyString)) as [->|Hne]; [by eexists|].
  rewrite FileServer_accepts by done. unfold normalizedPath.
  replace (String.eqb path "/") with false.
  2:{ symmetry. apply String.eqb_neq. by intros ->. }
  cbn [orb]. destruct (strings.HasSuffix path "/").
  - unfold bind, ret.
    rewrite Mux_Get_refuses by (by apply firstByteIs_app_false). by eexists.
  - unfold bind. rewrite Mux_Get_refuses by done. by eexists.
Qed.

Lemma FileServer_mux_ok_inv (path : string) root (mx : chi.Mux) :
  (FileServer path root mx).1 = Ok tt →
  strings.ContainsAny path "{}*" = false ∧ http.firstByteIs "/" path = true.
Proof.
  intros Hok.
  destruct (strings.ContainsAny path "{}*") eqn:Hany.
  { by rewrite FileServer_rejects in Hok. }
  destruct (http.firstByteIs "/" path) eqn:Hslash; [done|].
  destruct (FileServer_mux_panics path root mx Hany Hslash) as [p Hp].
  by rewrite Hp in Hok.
Qed.

(** X4: on a chi mux, [FileServer] returns normally exactly for the mount
    paths that begin with a slash and hold none of the bytes [{], [}] and
    [*]; every other path ends setup in a panic. *)
Theorem X4_FileServer_succeeds_iff (path : string) (root : http.FileSystem)
    (mx : chi.Mux) :
  (FileServer path root mx).1 = Ok tt
  ↔ strings.ContainsAny path "{}*" = false ∧ http.firstByteIs "/" path = true.
Proof.
  split; [apply FileServer_mux_ok_inv|].
  intros [Hany Hslash]. by rewrite FileServer_mux.
Qed.

(** X5: [FileServer] on a mux is all or nothing.  When it returns
    normally it has only added routes after those the mux had, and left the
    middlewares alone; when it panics, whatever the reason, the mux is
    exactly as it was. *)
Theorem X5_FileServer_all_or_nothing (path : string) (root : http.FileSystem)
    (mx : chi.Mux) :
  match FileServer path root mx with
  | (Ok _, mx') =>
      chi.middlewares mx' = chi.middlewares mx
      ∧ ∃ new, new ≠ [] ∧ chi.routes mx' = chi.routes mx ++ new
  | (Panicked _, mx') => mx' = mx
  end.
Proof.
  destruct (strings.ContainsAny path "{}*") eqn:Hany.
  { by rewrite FileServer_rejects. }
  destruct (http.firstByteIs "/" path) eqn:Hslash.
  - rewrite FileServer_mux by done. split; [done|].
    eexists. split; [|reflexivity]. by destruct (_ || _).
  - destruct (FileServer_mux_panics path root mx Hany Hslash) as [p ->]. done.
Qed.

(** X6: [FileServer] never registers a pattern with URL parameters or an
    inner wildcard: every route it adds is a GET route whose pattern is a
    literal path free of [{], [}] and [*], followed by at most one star at
    its very end. *)
Theorem X6_registered_patterns_are_literal (path : string) (root : http.FileSystem)
    (mx mx' : chi.Mux) (rt : chi.Route) :
  FileServer path root mx = (Ok tt, mx') →
  rt ∈ drop (length (chi.routes mx)) (chi.routes mx') →
  chi.routeMethod rt = "GET"
  ∧ strings.ContainsAny (strings.TrimSuffix (chi.routePattern rt) "*") "{}*" = false
  ∧ chi.wildcardLast (chi.routePattern rt) = true.
Proof.
  intros Hok Hrt.
  destruct (FileServer_mux_ok_inv path root mx) as [Hany Hslash].
  { by rewrite Hok. }
  rewrite FileServer_mux in Hok by done. injection Hok as <-.
  cbn [chi.routes] in Hrt. rewrite drop_app_length in Hrt.
  pose proof (ContainsAny_false_byte path "{}*" "*" Hany eq_refl) as Hstar.
  assert (strings.ContainsAny (normalizedPath path) "{}*" = false) as Hnorm.
  { unfold normalizedPath. destruct (_ || _); [done|].
    by rewrite ContainsAny_app, Hany. }
  assert (strings.containsByte "*" (normalizedPath path) = false) as Hnstar
    by (by apply ContainsAny_false_byte with "{}*").
  assert (rt = {| chi.routeMethod := "GET"; chi.routePattern := path;
                  chi.routeHandler := http.RedirectHandler (path +:+ "/") 301 |}
          ∨ rt = {| chi.routeMethod := "GET";
                    chi.routePattern := normalizedPath path +:+ "*";
                    chi.routeHandler := serveFiles root |}) as [-> | ->].
  { destruct (_ || _); cbn [app] in Hrt;
      repeat (apply elem_of_cons in Hrt as [->|Hrt]); auto;
      by apply elem_of_nil in Hrt. }
  - cbn [chi.routeMethod chi.routePattern]. split; [done|]. split.
    + unfold strings.TrimSuffix.
      destruct (strings.dropSuffix "*" path) as [p|] eqn:E; [|done].
      apply dropSuffix_byte in E. congruence.
    + by apply wildcardLast_no_star.
  - cbn [chi.routeMethod chi.routePattern]. split; [done|]. split.
    + unfold strings.TrimSuffix. by rewrite dropSuffix_app.
    + by apply wildcardLast_star.
Qed.
End MountOutcome.

Lemma X4_witness :
  (@FileServer Sample.parser Sample.files chi.Mux _ "/static/" "/var/www"
     chi.NewRouter).1 = Ok tt.
Proof.
  apply (proj2 (@X4_FileServer_succeeds_iff Sample.parser Sample.files
                  "/static/" "/var/www" chi.NewRouter)).
  split; reflexivity.
Defined.

Lemma X6_witness :
  let wildcard := {| chi.routeMethod := "GET"; chi.routePattern := "/files/*";
                     chi.routeHandler := @serveFiles Sample.files "data" |} in
  strings.ContainsAny (strings.TrimSuffix (chi.routePattern wildcard) "*") "{}*"
  = false.
Proof.
  intros wildcard.
  refine (proj1 (proj2 (@X6_registered_patterns_are_literal Sample.parser Sample.files
                          "/files" "data" chi.NewRouter _ wildcard eq_refl _))).
  cbn. apply elem_of_cons. right. apply elem_of_cons. by left.
Defined.

(** ** A mount given with its trailing slash *)

(** A mux without middlewares, on a request that comes in from the server. *)
Lemma plain_mux_routes (mx : chi.Mux) (method target : string) w (req : http.Request) :
  chi.middlewares mx = [] →
  chi.handlerBuilt mx = true →
  incoming method target req →
  target ≠ EmptyString →
  method ∈ chi.methodMap →
  chi.FindRoute (chi.routes mx) method target = None →
  chi.methodNotAllowed (chi.routes mx) target = false →
  chi.ServeHTTP mx w req = http.NotFound w req.
Proof.
  intros Hms Hbuilt (Hm & Hp & Hrp & Hc) Hne Hmethod Hfind Hother.
  unfold chi.ServeHTTP. rewrite Hbuilt, Hms. cbn [negb].
  unfold chi.RouteContext at 1. rewrite Hc. unfold chi.chain. cbn [foldr].
  unfold chi.routeHTTP.
  cbn [http.WithContext http.ctx http.URL http.Method chi.RouteContext
       http.RouteCtx default].
  rewrite Hrp, Hp, Hm. unfold id.
  cbn [chi.freshContext RoutePath String.eqb negb].
  replace (String.eqb target "") with false
    by (symmetry; by apply String.eqb_neq).
  rewrite bool_decide_eq_true_2 by done. cbn [negb].
  by rewrite Hfind, Hother.
Qed.

Section TrailingSlash.
Context `{!url.Parser} `{!http.Files}.

(** X7: a mount path that already ends in a slash gets the wildcard route
    only, never a redirect: on a mux that holds this mount alone, the same
    path without its last slash is answered with 404, where [/files] in
    [main] is answered with a redirect. *)
Theorem X7_trailing_slash_mount_has_no_redirect (base : string)
    (root : http.FileSystem) :
  strings.ContainsAny base "{}*" = false →
  http.firstByteIs "/" base = true →
  (∀ mx : chi.Mux,
      chi.routes (FileServer (base +:+ "/") root mx).2
      = chi.routes mx ++
        [{| chi.routeMethod := "GET"; chi.routePattern := base +:+ "/*";
            chi.routeHandler := serveFiles root |}])
  ∧ (∀ (req : http.Request),
      incoming "GET" base req →
      chi.ServeHTTP (FileServer (base +:+ "/") root chi.NewRouter).2 [] req
      = http.NotFound [] req).
Proof.
  intros Hany Hslash.
  assert (strings.ContainsAny (base +:+ "/") "{}*" = false) as Hany'
    by (by rewrite ContainsAny_app, Hany).
  assert (http.firstByteIs "/" (base +:+ "/") = true) as Hslash'
    by (by apply firstByteIs_app).
  assert (strings.HasSuffix (base +:+ "/") "/" = true) as Hsuf.
  { unfold strings.HasSuffix. by rewrite dropSuffix_app. }
  assert (∀ mx : chi.Mux,
      FileServer (base +:+ "/") root mx
      = (Ok tt,
         {| chi.middlewares := chi.middlewares mx; chi.handlerBuilt := true;
            chi.routes := chi.routes mx ++
              [{| chi.routeMethod := "GET"; chi.routePattern := base +:+ "/*";
                  chi.routeHandler := serveFiles root |}] |})) as Hmux.
  { intros mx. rewrite FileServer_mux by done. unfold normalizedPath.
    rewrite Hsuf, orb_true_r. cbn [app]. by rewrite app_assoc_string. }
  split; [intros mx; by rewrite Hmux|].
  intros req Hin. rewrite Hmux. cbn [snd].
  assert (base ≠ EmptyString) as Hne by (by intros ->).
  assert (chi.patternMatches (base +:+ "/*") base = false) as Hno.
  { unfold chi.patternMatches.
    replace (base +:+ "/*") with ((base +:+ "/") +:+ "*") by apply app_assoc_string.
    rewrite dropSuffix_app. unfold strings.HasPrefix.
    destruct (strings.dropPrefix (base +:+ "/") base) as [rest|] eqn:E;
      [|by rewrite bool_decide_eq_false_2 by (by intros [? ?])].
    apply dropPrefix_Some in E. apply (f_equal String.length) in E.
    rewrite !string_length_app in E. cbn in E. lia. }
  apply plain_mux_routes with "GET" base; try done.
  - unfold chi.methodMap. set_solver.
  - cbn [chi.routes chi.NewRouter app]. apply FindRoute_none.
    repeat constructor. cbn [chi.routePattern]. by rewrite Hno, andb_false_r.
  - cbn [chi.routes chi.NewRouter app chi.methodNotAllowed existsb chi.routePattern].
    unfold chi.methodNotAllowed. cbn [existsb chi.routePattern]. by rewrite Hno.
Qed.
End TrailingSlash.

Lemma X7_witness :
  http.status
    (http.finishRequest
       (chi.ServeHTTP
          (@FileServer Sample.parser Sample.files chi.Mux _ "/static/" "/var/www"
             chi.NewRouter).2 []
          (Sample.request "GET" "/static" EmptyString))) = 404.
Proof.
  pose proof (proj2 (@X7_trailing_slash_mount_has_no_redirect Sample.parser
                       Sample.files "/static" "/var/www" eq_refl eq_refl)
                (Sample.request "GET" "/static" EmptyString)) as Hanswer.
  change ("/static" +:+ "/") with "/static/" in Hanswer.
  rewrite Hanswer; [reflexivity|done].
Defined.

(** ** The wildcard handler when the prefix does not fit *)

Section PrefixMismatch.
Context `{!http.Files}.

(** X8: the wildcard handler answers 404 itself, without asking the file
    server, when the prefix it computed from the matched pattern is not
    empty and the request's path does not start with it, or the request
    carries a raw path that does not start with it.  This is the case
    below a pattern with a URL parameter, whose braces are in the pattern
    and not in the path. *)
Theorem X8_prefix_mismatch_is_404 (root : http.FileSystem) (w : http.ResponseWriter)
    (r : http.Request) :
  let prefix :=
    strings.TrimSuffix (chi.RoutePattern (chi.RouteContext (http.ctx r))) "/*" in
  prefix ≠ EmptyString →
  strings.HasPrefix (url.Path (http.URL r)) prefix = false
  ∨ (url.RawPath (http.URL r) ≠ EmptyString
     ∧ strings.HasPrefix (url.RawPath (http.URL r)) prefix = false) →
  serveFiles root w r = http.NotFound w r.
Proof. exact (serveFiles_mismatch root w r). Qed.
End PrefixMismatch.

Lemma X8_witness :
  @serveFiles Sample.files "/srv/data" []
    {| http.Method := "GET";
       http.URL := {| url.Scheme := EmptyString; url.Host := EmptyString;
                      url.Path := "/users/42/files/a.txt"; url.RawPath := EmptyString;
                      url.RawQuery := EmptyString |};
       http.ctx :=
         {| http.RouteCtx :=
              Some {| RoutePath := "/files/a.txt";
                      RoutePatterns := ["/users/{id}/*"; "/files/*"] |};
            http.RequestID := None |} |}
  = [http.CallHeaderDel "Content-Length";
     http.CallHeaderSet "Content-Type" "text/plain; charset=utf-8";
     http.CallHeaderSet "X-Content-Type-Options" "nosniff";
     http.CallWriteHeader 404;
     http.CallWrite ("404 page not found" +:+ String "010" EmptyString)].
Proof.
  rewrite (@X8_prefix_mismatch_is_404 Sample.files "/srv/data" []);
    [reflexivity|done|left; reflexivity].
Defined.

(** ** Mounting leaves other paths alone *)

(** The middlewares of [main] are of this kind. *)
Lemma main_middlewares_keep_route_path `{!middleware.IDs} :
  Forall keepsRoutePath
    [middleware.RequestID; middleware.Logger; middleware.Recoverer].
Proof.
  repeat constructor.
  - intros next next' w r Hsame. unfold middleware.RequestID. by apply Hsame.
  - intros next next' w r Hsame. unfold middleware.Logger. by rewrite Hsame.
  - intros next next' w r Hsame. unfold middleware.Recoverer. by apply Hsame.
Qed.

Lemma chain_keeps_route_path (ms : list chi.Middleware) (h h' : http.HandlerFunc) :
  Forall keepsRoutePath ms →
  ∀ w r,
    (∀ w' r', routePathOf r' = routePathOf r → h w' r' = h' w' r') →
    chi.chain ms h w r = chi.chain ms h' w r.
Proof.
  intros Hms. induction Hms as [|m ms Hm _ IH]; intros w r Hsame.
  - by apply Hsame.
  - cbn [chi.chain foldr]. apply Hm. intros w' r' Hr'.
    apply IH. intros w'' r'' Hr''. apply Hsame. congruence.
Qed.

Lemma methodsAllowed_app_skip (old new : list chi.Route) (routePath : string) :
  Forall (λ rt, chi.patternMatches (chi.routePattern rt) routePath = false) new →
  chi.methodsAllowed (old ++ new) routePath = chi.methodsAllowed old routePath.
Proof.
  intros Hnew. unfold chi.methodsAllowed. rewrite filter_app.
  replace (filter _ new) with (@nil chi.Route); [by rewrite app_nil_r|].
  symmetry. induction Hnew as [|rt new Hrt _ IH]; [done|].
  rewrite filter_cons_False by congruence. exact IH.
Qed.

Section MountFrame.
Context `{!url.Parser} `{!http.Files}.

(** On a route path that is not the mount path and not under it, the mux
    routes after the mount as before. *)
Lemma routeHTTP_frame (path : string) (root : http.FileSystem)
    (mx : chi.Mux) (w : http.ResponseWriter) (r : http.Request) :
  strings.ContainsAny path "{}*" = false →
  http.firstByteIs "/" path = true →
  routePathOf r ≠ path →
  strings.HasPrefix (routePathOf r) (normalizedPath path) = false →
  chi.routeHTTP (FileServer path root mx).2 w r = chi.routeHTTP mx w r.
Proof.
  intros Hany Hslash Hpath Hunder.
  rewrite FileServer_mux by done. cbn [snd].
  pose proof (ContainsAny_false_byte path "{}*" "*" Hany eq_refl) as Hstar.
  assert (chi.patternMatches path (routePathOf r) = false) as Hexact.
  { unfold chi.patternMatches.
    destruct (strings.dropSuffix "*" path) as [p|] eqn:E.
    { apply dropSuffix_byte in E. congruence. }
    by apply String.eqb_neq. }
  assert (chi.patternMatches (normalizedPath path +:+ "*") (routePathOf r) = false)
    as Hwild.
  { unfold chi.patternMatches. by rewrite dropSuffix_app. }
  set (new := (if String.eqb path "/" || strings.HasSuffix path "/" then []
               else [{| chi.routeMethod := "GET"; chi.routePattern := path;
                        chi.routeHandler := http.RedirectHandler (path +:+ "/") 301 |}])
              ++ [{| chi.routeMethod := "GET";
                     chi.routePattern := normalizedPath path +:+ "*";
                     chi.routeHandler := serveFiles root |}]).
  assert (Forall (λ rt, chi.patternMatches (chi.routePattern rt) (routePathOf r) = false)
            new) as Hnew.
  { subst new. destruct (_ || _); repeat constructor; done. }
  assert (∀ method, chi.FindRoute (chi.routes mx ++ new) method (routePathOf r)
                    = chi.FindRoute (chi.routes mx) method (routePathOf r)) as Hfind.
  { intros method. apply FindRoute_app_skip.
    eapply Forall_impl; [exact Hnew|]. intros rt Hrt. cbn beta.
    by rewrite Hrt, andb_false_r. }
  assert (chi.methodNotAllowed (chi.routes mx ++ new) (routePathOf r)
          = chi.methodNotAllowed (chi.routes mx) (routePathOf r)) as Hother.
  { unfold chi.methodNotAllowed. rewrite existsb_app.
    replace (existsb _ new) with false; [by rewrite orb_false_r|].
    symmetry. apply not_true_is_false. intros (rt & Hin & Hrt)%existsb_exists.
    apply list_elem_of_In in Hin.
    rewrite Forall_forall in Hnew. by rewrite (Hnew rt Hin) in Hrt. }
  pose proof (methodsAllowed_app_skip (chi.routes mx) new (routePathOf r) Hnew)
    as Hallowed.
  unfold chi.routeHTTP. cbn [chi.routes].
  change (if negb (String.eqb (RoutePath (default chi.freshContext
                                            (chi.RouteContext (http.ctx r)))) "")
          then RoutePath (default chi.freshContext (chi.RouteContext (http.ctx r)))
          else
            if String.eqb
                 (if negb (String.eqb (url.RawPath (http.URL r)) "")
                  then url.RawPath (http.URL r) else url.Path (http.URL r)) ""
            then "/"
            else if negb (String.eqb (url.RawPath (http.URL r)) "")
                 then url.RawPath (http.URL r) else url.Path (http.URL r))
    with (routePathOf r).
  by rewrite Hfind, Hother, Hallowed.
Qed.

(** X9: mounting a file server on a mux that has a route already changes
    the answer to no request for another path.  With middlewares that hand
    on requests of the same route path, as those of [main] do, a request
    that the mux routes on a path other than the mount path and not under
    it gets from the mux after [FileServer] what it got before: the calls
    of the same handler, or the same 404 or 405. *)
Theorem X9_mount_leaves_other_paths_alone (path : string) (root : http.FileSystem)
    (mx : chi.Mux) (w : http.ResponseWriter) (r : http.Request) :
  strings.ContainsAny path "{}*" = false →
  http.firstByteIs "/" path = true →
  chi.handlerBuilt mx = true →
  Forall keepsRoutePath (chi.middlewares mx) →
  routePathOf r ≠ path →
  strings.HasPrefix (routePathOf r) (normalizedPath path) = false →
  chi.ServeHTTP (FileServer path root mx).2 w r = chi.ServeHTTP mx w r.
Proof.
  intros Hany Hslash Hbuilt Hms Hpath Hunder.
  assert (∀ w' r', routePathOf r' = routePathOf r →
            chi.routeHTTP (FileServer path root mx).2 w' r' = chi.routeHTTP mx w' r')
    as Hroutes.
  { intros w' r' Hr'. apply routeHTTP_frame; [done|done|congruence|congruence]. }
  assert (chi.middlewares (FileServer path root mx).2 = chi.middlewares mx
          ∧ chi.handlerBuilt (FileServer path root mx).2 = true) as [Hsame Hbuilt'].
  { by rewrite FileServer_mux. }
  unfold chi.ServeHTTP. rewrite Hbuilt, Hbuilt', Hsame. cbn [negb].
  destruct (chi.RouteContext (http.ctx r)) as [rctx|] eqn:Hctx.
  - by apply chain_keeps_route_path.
  - apply chain_keeps_route_path; [done|].
    intros w' r' Hr'. apply Hroutes. rewrite Hr'.
    unfold routePathOf. rewrite Hctx. reflexivity.
Qed.
End MountFrame.

Lemma X9_witness :
  let mx := @router Sample.parser Sample.files Sample.ids "/srv" in
  let r := Sample.request "GET" "/picture" EmptyString in
  chi.ServeHTTP (@FileServer Sample.parser Sample.files chi.Mux _ "/static" "/var/www"
                   mx).2 [] r
  = chi.ServeHTTP mx [] r.
Proof.
  intros mx r.
  apply (@X9_mount_leaves_other_paths_alone Sample.parser Sample.files
           "/static" "/var/www" mx [] r);
    [reflexivity|reflexivity|reflexivity| |done|reflexivity].
  exact (@main_middlewares_keep_route_path Sample.ids).
Defined.

(** ** The wildcard handler below a mounted router *)

Lemma replaceFrom_clean (s old new : string) :
  strings.Contains s old = false → strings.replaceFrom O s old new = s.
Proof.
  induction s as [|a s IH]; [done|].
  change (strings.Contains (String a s) old)
    with (strings.HasPrefix (String a s) old || strings.Contains s old).
  intros [Hp Hc]%orb_false_iff.
  cbn [strings.replaceFrom]. rewrite Hp. by rewrite IH.
Qed.

(** The first [/*/] after a stretch without stars is replaced by a
    slash, and the replacement goes on behind it. *)
Lemma ReplaceAll_first_wildcard (s rest : string) :
  strings.containsByte "*" s = false →
  strings.ReplaceAll (s +:+ "/*/" +:+ rest) "/*/" "/"
  = s +:+ "/" +:+ strings.ReplaceAll rest "/*/" "/".
Proof.
  unfold strings.ReplaceAll. induction s as [|a s IH]; [done|].
  cbn [strings.containsByte]. intros [Ha Hs]%orb_false_iff.
  rewrite !(app_cons a s). cbn [strings.replaceFrom].
  replace (strings.HasPrefix (String a (s +:+ "/*/" +:+ rest)) "/*/") with false.
  { by rewrite IH. }
  symmetry. unfold strings.HasPrefix. cbn [strings.dropPrefix].
  destruct (Ascii.eqb "/" a); [|done].
  destruct s as [|b s]; [done|].
  cbn [strings.containsByte] in Hs. apply orb_false_iff in Hs as [Hb _].
  rewrite app_cons. cbn [strings.dropPrefix]. by rewrite Ascii.eqb_sym, Hb.
Qed.

Lemma Contains_app_r (s t sub : string) :
  strings.Contains t sub = true → strings.Contains (s +:+ t) sub = true.
Proof.
  intros Ht. induction s as [|a s IH]; [done|].
  rewrite app_cons.
  change (strings.HasPrefix (String a (s +:+ t)) sub
          || strings.Contains (s +:+ t) sub = true).
  by rewrite IH, orb_true_r.
Qed.

(** Below a router mounted at [outer], the routing context holds the
    pattern of the mount and the pattern of the wildcard route; the two are
    joined into the pattern of the whole path. *)
Lemma RoutePattern_mounted (outer inner routePath : string) :
  strings.containsByte "*" outer = false →
  strings.containsByte "*" inner = false →
  http.firstByteIs "/" inner = true →
  chi.RoutePattern
    (Some {| RoutePath := routePath;
             RoutePatterns := [outer +:+ "/*"; inner +:+ "/*"] |})
  = (outer +:+ inner) +:+ "/*".
Proof.
  intros Houter Hinner Hslash.
  destruct inner as [|c inner]; [done|]. cbn in Hslash.
  apply Ascii.eqb_eq in Hslash as ->.
  cbn [strings.containsByte] in Hinner. apply orb_false_iff in Hinner as [_ Hinner].
  unfold chi.RoutePattern. cbn [RoutePatterns strings.Join].
  rewrite app_empty.
  replace ((outer +:+ "/*") +:+ String "/" inner +:+ "/*")
    with (outer +:+ "/*/" +:+ (inner +:+ "/") +:+ "*")
    by (by rewrite !app_assoc_string).
  replace ((outer +:+ String "/" inner) +:+ "/*")
    with ((outer +:+ "/" +:+ inner +:+ "/") +:+ "*")
    by (by rewrite !app_assoc_string).
  assert (strings.Contains ((inner +:+ "/") +:+ "*") "/*/" = false) as Htail.
  { apply Contains_wildcard_inside. by rewrite containsByte_app, Hinner. }
  assert (strings.ReplaceAll (outer +:+ "/*/" +:+ (inner +:+ "/") +:+ "*") "/*/" "/"
          = (outer +:+ "/" +:+ inner +:+ "/") +:+ "*") as Hround.
  { rewrite ReplaceAll_first_wildcard by done.
    unfold strings.ReplaceAll. rewrite replaceFrom_clean by done.
    by rewrite !app_assoc_string. }
  assert (strings.Contains ((outer +:+ "/" +:+ inner +:+ "/") +:+ "*") "/*/" = false)
    as Hclean.
  { apply Contains_wildcard_inside.
    rewrite !containsByte_app, Houter, Hinner. done. }
  assert (chi.replaceWildcards (outer +:+ "/*/" +:+ (inner +:+ "/") +:+ "*")
          = (outer +:+ "/" +:+ inner +:+ "/") +:+ "*") as ->.
  { unfold chi.replaceWildcards.
    destruct (String.length _) as [|n] eqn:Hlen.
    { rewrite !string_length_app in Hlen. cbn in Hlen. lia. }
    cbn [chi.replaceWildcardsN].
    rewrite Contains_app_r by done. rewrite Hround.
    destruct n; cbn [chi.replaceWildcardsN]; [done|by rewrite Hclean]. }
  destruct (String.eqb ((outer +:+ "/" +:+ inner +:+ "/") +:+ "*") "/") eqn:E.
  { apply String.eqb_eq in E. apply (f_equal String.length) in E.
    rewrite !string_length_app in E. cbn in E. lia. }
  pose proof (dropSuffix_star_slash (outer +:+ "/" +:+ inner +:+ "/") "/") as Hdouble.
  pose proof (dropSuffix_star_slash (outer +:+ "/" +:+ inner +:+ "/") EmptyString)
    as Hsingle.
  change ("/" +:+ "/") with "//" in Hdouble.
  change (EmptyString +:+ "/") with "/" in Hsingle.
  unfold strings.TrimSuffix. rewrite Hdouble. cbn [default]. by rewrite Hsingle.
Qed.

Section MountedBelow.
Context `{!http.Files}.

(** X10: the wildcard handler works below a router mounted at a literal
    prefix.  With the mount's pattern [outer/*] and the wildcard route's
    pattern [inner/*] in the routing context, it strips [outer] and [inner]
    together from the request's path, which still is the full path, and
    asks the file server for the rest; the mount path [FileServer] was
    given plays no part. *)
Theorem X10_serves_below_a_mount (outer inner rest routePath : string)
    (root : http.FileSystem) (w : http.ResponseWriter) (r : http.Request) :
  strings.containsByte "*" outer = false →
  strings.containsByte "*" inner = false →
  http.firstByteIs "/" inner = true →
  chi.RouteContext (http.ctx r)
    = Some {| RoutePath := routePath;
              RoutePatterns := [outer +:+ "/*"; inner +:+ "/*"] |} →
  url.Path (http.URL r) = (outer +:+ inner) +:+ rest →
  url.RawPath (http.URL r) = EmptyString →
  serveFiles root w r
  = http.FileServer root w
      {| http.Method := http.Method r;
         http.URL := url.withPath (http.URL r) rest EmptyString;
         http.ctx := http.ctx r |}.
Proof.
  intros Houter Hinner Hslash Hctx Hp Hrp.
  unfold serveFiles. rewrite Hctx, RoutePattern_mounted by done.
  unfold strings.TrimSuffix. rewrite dropSuffix_app. cbn [default].
  by apply StripPrefix_strips.
Qed.
End MountedBelow.

Lemma X10_witness :
  @serveFiles Sample.files "/srv/data" []
    {| http.Method := "GET";
       http.URL := {| url.Scheme := EmptyString; url.Host := EmptyString;
                      url.Path := "/api/v1/files/img/a.png";
                      url.RawPath := EmptyString; url.RawQuery := EmptyString |};
       http.ctx :=
         {| http.RouteCtx :=
              Some {| RoutePath := "/files/img/a.png";
                      RoutePatterns := ["/api/v1/*"; "/files/*"] |};
            http.RequestID := None |} |}
  = [http.CallWrite "/srv/data/img/a.png"].
Proof.
  rewrite (@X10_serves_below_a_mount Sample.files "/api/v1" "/files" "/img/a.png"
             "/files/img/a.png" "/srv/data" []);
    reflexivity.
Defined.
